(** * tong: the per-request context (context.go)

    A shallow embedding of [Context] and its methods, together with the
    pieces of the Go runtime library the methods call, and the properties
    of the specification proved about them.

    Conventions.
    - Go [int] is a 64-bit integer, modelled as [Z]; the only arithmetic
      the program does on it is comparison, the range check of
      [strconv.Atoi] is written out.
    - Go [string] is a byte string, modelled as [string]; [[]byte] is
      [list byte].
    - Go [error] is [option error], [None] being [nil].
    - Go maps ([http.Header], [url.Values]) are [gmap string (list string)].
    - A method with a pointer receiver becomes a function that returns the
      new state of the receiver next to its results. *)

From Stdlib Require Import ZArith String Ascii List Bool Lia.
From Stdlib Require Import Strings.Byte.
From stdpp Require Import base option list strings gmap.

Local Open Scope string_scope.
Local Open Scope Z_scope.

(** ** Errors *)

(** The reason carried by a [*strconv.NumError]. *)
Inductive NumErrorKind := ErrSyntax | ErrRange.

(** Values of the Go interface [error] the program can see.
    [errorString] is what [errors.New] builds; [NumError] is strconv's;
    [EscapeError] is net/url's; [ForeignError] stands for the errors the
    collaborators hand over (transport, encoder, body parser, binder), which
    the context never inspects. *)
Inductive error :=
  | errorString (msg : string)
  | NumError (func num : string) (kind : NumErrorKind)
  | EscapeError (at_ : string)
  | ForeignError (origin : string) (id : N).

Module errors.
Definition New (msg : string) : error := errorString msg.
End errors.

(** ** Bytes and characters *)

Definition byte_of_Z (n : Z) : ascii := ascii_of_N (Z.to_N n).
Definition Z_of_byte (c : ascii) : Z := Z.of_N (N_of_ascii c).

Definition between (lo hi : Z) (c : ascii) : bool :=
  (lo <=? Z_of_byte c) && (Z_of_byte c <=? hi).

Definition is_digit (c : ascii) : bool := between 48 57 c.
Definition is_lower (c : ascii) : bool := between 97 122 c.
Definition is_upper (c : ascii) : bool := between 65 90 c.

Fixpoint string_forallb (p : ascii -> bool) (s : string) : bool :=
  match s with
  | EmptyString => true
  | String c rest => p c && string_forallb p rest
  end.

Fixpoint string_existsb (p : ascii -> bool) (s : string) : bool :=
  match s with
  | EmptyString => false
  | String c rest => p c || string_existsb p rest
  end.

(** [s == ""] *)
Definition is_empty (s : string) : bool :=
  match s with EmptyString => true | _ => false end.

(** [[]byte(s)] *)
Definition bytes_of (s : string) : list byte := list_byte_of_string s.

(** ** package strings *)

Module gostrings.
(** [strings.HasPrefix(s, prefix)] *)
Definition HasPrefix (s prefix : string) : bool := String.prefix prefix s.

(** [strings.Cut(s, sep)] for a one-byte separator: the text before the
    first [sep], the text after it, and whether [sep] was found. *)
Fixpoint Cut (sep : ascii) (s : string) : string * string * bool :=
  match s with
  | EmptyString => (EmptyString, EmptyString, false)
  | String c rest =>
      if Ascii.eqb c sep then (EmptyString, rest, true)
      else let '(before, after, found) := Cut sep rest in
           (String c before, after, found)
  end.

(** The pieces of [s] between occurrences of [sep], in order: what a loop
    of [Cut] on the remainder visits. *)
Fixpoint pieces (sep : ascii) (s : string) : list string :=
  match s with
  | EmptyString => [EmptyString]
  | String c rest =>
      if Ascii.eqb c sep then EmptyString :: pieces sep rest
      else match pieces sep rest with
           | p :: ps => String c p :: ps
           | [] => [String c EmptyString]
           end
  end.
End gostrings.

(** ** package net/textproto *)

Module textproto.
(** The bytes allowed in a header field name (RFC 7230 token). *)
Definition validHeaderFieldByte (c : ascii) : bool :=
  is_digit c || is_lower c || is_upper c ||
  string_existsb (Ascii.eqb c) "!#$%&'*+-.^_`|~".

Definition upper (c : ascii) : ascii :=
  if is_lower c then byte_of_Z (Z_of_byte c - 32) else c.
Definition lower (c : ascii) : ascii :=
  if is_upper c then byte_of_Z (Z_of_byte c + 32) else c.

(** First letter and every letter after a dash in upper case, the others
    in lower case. *)
Fixpoint canonical (up : bool) (s : string) : string :=
  match s with
  | EmptyString => EmptyString
  | String c rest =>
      let c' := if up then upper c else lower c in
      String c' (canonical (Ascii.eqb c' "-") rest)
  end.

(** [textproto.CanonicalMIMEHeaderKey]: a key with a byte that is not
    allowed in a field name is returned unchanged. *)
Definition CanonicalMIMEHeaderKey (s : string) : string :=
  if string_forallb validHeaderFieldByte s then canonical true s else s.
End textproto.

(** ** package net/url *)

Module url.
(** [url.Values] *)
Abbreviation Values := (gmap string (list string)).

(** [Values.Get]: the first value of the key, [""] when there is none. *)
Definition Get (key : string) (v : Values) : string :=
  match v !! key with
  | Some (x :: _) => x
  | _ => ""
  end.

(** [Values.Add], which is what the query parser does with each pair. *)
Definition Add (key value : string) (v : Values) : Values :=
  <[key := (default [] (v !! key) ++ [value])%list]> v.

Definition ishex (c : ascii) : bool :=
  is_digit c || between 97 102 c || between 65 70 c.

Definition unhex (c : ascii) : Z :=
  if is_digit c then Z_of_byte c - 48
  else if between 97 102 c then Z_of_byte c - 97 + 10
  else if between 65 70 c then Z_of_byte c - 65 + 10
  else 0.

(** [url.QueryUnescape]: [%XX] is the byte XX, [+] is a space; a [%] that
    two hexadecimal digits do not follow is an error. *)
Fixpoint QueryUnescape (s : string) : string + error :=
  match s with
  | EmptyString => inl EmptyString
  | String c rest =>
      if Ascii.eqb c "%" then
        match rest with
        | String a (String b rest') =>
            if ishex a && ishex b then
              match QueryUnescape rest' with
              | inl t => inl (String (byte_of_Z (unhex a * 16 + unhex b)) t)
              | inr e => inr e
              end
            else inr (EscapeError (String c (String a (String b EmptyString))))
        | _ => inr (EscapeError s)
        end
      else
        match QueryUnescape rest with
        | inl t => inl (String (if Ascii.eqb c "+" then " "%char else c) t)
        | inr e => inr e
        end
  end.

(** One [key=value] setting of a query string, as the loop body of
    [url.parseQuery] treats it: a setting with a semicolon, an empty one
    and one that does not unescape are skipped. *)
Definition parsePair (m : Values) (setting : string) : Values :=
  if string_existsb (Ascii.eqb ";") setting then m
  else if is_empty setting then m
  else
    let '(key, value, _) := gostrings.Cut "=" setting in
    match QueryUnescape key, QueryUnescape value with
    | inl k, inl v => Add k v m
    | _, _ => m
    end.

(** [url.ParseQuery], of which [URL.Query] drops the error. *)
Definition ParseQuery (query : string) : Values :=
  fold_left parsePair (gostrings.pieces "&" query) ∅.

(** [url.URL], the one field the context reads. *)
Record URL := { RawQuery : string }.

(** [URL.Query] *)
Definition Query (u : URL) : Values := ParseQuery (RawQuery u).
End url.

(** ** package strconv *)

Module strconv.
Definition maxInt : Z := 2 ^ 63 - 1.
Definition minInt : Z := - 2 ^ 63.

(** The value of a string of decimal digits; [None] when it is empty or
    holds another byte. *)
Fixpoint digits (acc : Z) (s : string) : option Z :=
  match s with
  | EmptyString => Some acc
  | String c rest =>
      if is_digit c then digits (acc * 10 + (Z_of_byte c - 48)) rest
      else None
  end.

Definition unsigned (s : string) : option Z :=
  if is_empty s then None else digits 0 s.

(** [strconv.Atoi] on a 64-bit platform: an optional sign and decimal
    digits; a value that does not fit is a range error next to the
    nearest bound. *)
Definition Atoi (s : string) : Z * option error :=
  let '(neg, body) :=
    match s with
    | String c rest =>
        if Ascii.eqb c "-" then (true, rest)
        else if Ascii.eqb c "+" then (false, rest)
        else (false, s)
    | EmptyString => (false, s)
    end in
  match unsigned body with
  | None => (0, Some (NumError "Atoi" s ErrSyntax))
  | Some un =>
      let n := if neg then - un else un in
      if n <? minInt then (minInt, Some (NumError "Atoi" s ErrRange))
      else if maxInt <? n then (maxInt, Some (NumError "Atoi" s ErrRange))
      else (n, None)
  end.

(** [strconv.ParseFloat] is taken as it is: the type of 64-bit floats
    and the parser are parameters, the getters only branch on the
    error. *)
Class FloatParser (float64 : Type) := {
  ParseFloat : string -> Z -> float64 * option error
}.
End strconv.

(** ** package net/http *)

Module http.
Definition StatusMultipleChoices : Z := 300.
Definition StatusPermanentRedirect : Z := 308.

(** [http.Header]: field name to values. *)
Abbreviation Header := (gmap string (list string)).

(** [Header.Get]: the first value under the canonical form of the key. *)
Definition Header_Get (key : string) (h : Header) : string :=
  match h !! textproto.CanonicalMIMEHeaderKey key with
  | Some (v :: _) => v
  | _ => ""
  end.

(** [Header.Set]: the values of the key are replaced by the one value. *)
Definition Header_Set (key value : string) (h : Header) : Header :=
  <[textproto.CanonicalMIMEHeaderKey key := [value]]> h.

(** What a [http.ResponseWriter] is asked to do, in the order of the calls:
    [WriteHeader] with the code, together with the header map as it stands
    at that moment (the fields that go out with the status line), and
    [Write] with the bytes it accepted. *)
Inductive Call :=
  | CallWriteHeader (statusCode : Z) (sent : Header)
  | CallWrite (data : list byte).

(** A [http.ResponseWriter]: the header map [Header()] returns, the calls
    received so far, and the state of the connection: [Some e] when a
    write on it fails with [e]. *)
Record ResponseWriter := {
  rw_header : Header;
  rw_calls : list Call;
  rw_broken : option error
}.

(** A store through the map [Header()] returned. *)
Definition rw_store (h : Header) (w : ResponseWriter) : ResponseWriter :=
  {| rw_header := h; rw_calls := rw_calls w; rw_broken := rw_broken w |}.

Definition rw_WriteHeader (statusCode : Z) (w : ResponseWriter) : ResponseWriter :=
  {| rw_header := rw_header w;
     rw_calls := (rw_calls w ++ [CallWriteHeader statusCode (rw_header w)])%list;
     rw_broken := rw_broken w |}.

(** [Write]: the number of bytes written and the error. *)
Definition rw_Write (data : list byte) (w : ResponseWriter)
  : Z * option error * ResponseWriter :=
  match rw_broken w with
  | Some e => (0, Some e, w)
  | None =>
      (Z.of_nat (length data), None,
       {| rw_header := rw_header w;
          rw_calls := (rw_calls w ++ [CallWrite data])%list;
          rw_broken := None |})
  end.

(** [http.Request]: the URL, the header, the unread body, and the two
    form maps, [None] (nil) until the body is parsed. *)
Record Request := {
  URL : url.URL;
  Header_ : Header;
  Body : list byte;
  Form : option url.Values;
  PostForm : option url.Values
}.

(** The two body parsers of [Request], taken as they are:
    [ParseMultipartForm(maxMemory)] and [ParseForm()] change the request
    (they read the body and fill [Form] and [PostForm]) and may fail. *)
Class FormParser := {
  ParseMultipartForm : Z -> Request -> option error * Request;
  ParseForm : Request -> option error * Request
}.

Definition defaultMaxMemory : Z := Z.shiftl 32 20.

(** [Request.PostFormValue]: parses the body when that was not done, drops
    the parser's error, and returns the first value of the key. *)
Definition PostFormValue `{FormParser} (key : string) (r : Request)
  : string * Request :=
  let r1 := match PostForm r with
            | None => snd (ParseMultipartForm defaultMaxMemory r)
            | Some _ => r
            end in
  (match PostForm r1 with
   | Some vs => url.Get key vs
   | None => ""
   end, r1).
End http.

(** ** package encoding/json *)

Module json.
(** The encoding itself is taken as it is: [marshal] is the compact
    encoding of a value of the interface type, [appendIndent] the
    re-indentation of an encoding with a prefix and an indent. *)
Class Codec (any : Type) := {
  marshal : any -> list byte + error;
  appendIndent : list byte -> string -> string -> list byte + error
}.

(** [json.Encoder], less the writer it points to: the methods below take
    the current state of that writer. *)
Record Encoder := { indentPrefix : string; indentValue : string }.

Definition NewEncoder : Encoder := {| indentPrefix := ""; indentValue := "" |}.

Definition SetIndent (prefix indent : string) (enc : Encoder) : Encoder :=
  {| indentPrefix := prefix; indentValue := indent |}.

(** The bytes [Encoder.Encode] hands to its writer: the encoding, a
    newline, re-indented when the encoder has a prefix or an indent. *)
Definition encoding `{Codec any} (enc : Encoder) (v : any) : list byte + error :=
  match marshal v with
  | inr e => inr e
  | inl b =>
      let b := (b ++ ["010"%byte])%list in
      if negb (is_empty (indentPrefix enc)) || negb (is_empty (indentValue enc))
      then appendIndent b (indentPrefix enc) (indentValue enc)
      else inl b
  end.
End json.

(** ** package common *)

Module common.
(** Modelled from the spec: the constant [common.HeaderLocation], declared
    outside context.go: the name of the Location header field. *)
Definition HeaderLocation : string := "Location".

(** Modelled from the spec: the constant [common.HeaderContentType],
    declared outside context.go: the name of the Content-Type header
    field. *)
Definition HeaderContentType : string := "Content-Type".

(** Modelled from the spec: the constant
    [common.MIMEApplicationJSONCharsetUTF8], declared outside context.go:
    the JSON-with-UTF8-charset identifier. *)
Definition MIMEApplicationJSONCharsetUTF8 : string := "application/json; charset=UTF-8".

(** Modelled from the spec: the constant [common.MIMETextPlainCharsetUTF8],
    declared outside context.go: the plain-text content type. *)
Definition MIMETextPlainCharsetUTF8 : string := "text/plain; charset=UTF-8".
End common.

(** ** package tong *)

(** Content-Type MIME of the most common data formats. *)
Definition MIMEJSON : string := "application/json".
Definition MIMEHTML : string := "text/html".
Definition MIMEXML : string := "application/xml".
Definition MIMEXML2 : string := "text/xml".
Definition MIMEPlain : string := "text/plain".
Definition MIMEPOSTForm : string := "application/x-www-form-urlencoded".
Definition MIMEMultipartPOSTForm : string := "multipart/form-data".
Definition MIMEPROTOBUF : string := "application/x-protobuf".
Definition MIMEMSGPACK : string := "application/x-msgpack".
Definition MIMEMSGPACK2 : string := "application/msgpack".
Definition MIMEYAML : string := "application/x-yaml".

(** Modelled from the spec: the constant [HeaderContentType] of package
    tong, declared outside context.go: the Content-Type header field. *)
Definition HeaderContentType : string := "Content-Type".

Definition defaultMemory : Z := Z.shiftl 32 20.

(** Modelled from the spec: the type [HandlerFunc] and the package-level
    [NotFoundHandler], declared outside context.go. A handler is a function
    value; the model keeps its identity only: the deterministic not-found
    handler, or the handler the router resolved for a route. *)
Inductive HandlerFunc :=
  | NotFoundHandler
  | RouteHandler (route : N).

(** Modelled from the spec: the type [Response], declared outside
    context.go: the wrapper around the outbound writer that tracks whether
    headers or status have been written, and the status code. [Status] is
    the field context.go assigns. *)
Record Response := {
  Writer : http.ResponseWriter;
  Status : Z;
  Committed : bool
}.

(** Modelled from the spec: [Response.Reset(w)] rewraps the response
    around [w] and clears what it tracked. *)
Definition Response_Reset (w : http.ResponseWriter) (r : Response) : Response :=
  {| Writer := w; Status := 0; Committed := false |}.

(** Modelled from the spec: [Response.Header()] is the header map of the
    wrapped writer. *)
Definition Response_Header (r : Response) : http.Header :=
  http.rw_header (Writer r).

(** A store through the map [Response.Header()] returned. *)
Definition Response_Header_store (h : http.Header) (r : Response) : Response :=
  {| Writer := http.rw_store h (Writer r);
     Status := Status r;
     Committed := Committed r |}.

(** Modelled from the spec: [Response.WriteHeader(code)] writes the status
    line on the wrapped writer and records the code. *)
Definition Response_WriteHeader (code : Z) (r : Response) : Response :=
  {| Writer := http.rw_WriteHeader code (Writer r);
     Status := code;
     Committed := true |}.

(** Modelled from the spec: [Response.Write(data)] writes on the wrapped
    writer and returns what that write returns. *)
Definition Response_Write (data : list byte) (r : Response)
  : Z * option error * Response :=
  let '(n, err, w) := http.rw_Write data (Writer r) in
  (n, err, {| Writer := w; Status := Status r; Committed := true |}).

(** The assignment [r.Status = code]. *)
Definition Response_Status_store (code : Z) (r : Response) : Response :=
  {| Writer := Writer r; Status := code; Committed := Committed r |}.

(** An object the context only refers to (the logger, the cache, the
    framework instance) is the address of the object. *)
Definition addr := N.

(** Context is context for every goroutine. The request and the response
    are the states of the objects the two pointers point to; [handler],
    [logger] and [requestCache] are [None] when nil. *)
Record Context := {
  request : http.Request;
  response : Response;
  path : string;
  handler : option HandlerFunc;
  logger : option addr;
  requestCache : option addr;
  tong : addr
}.

Definition with_request (r : http.Request) (c : Context) : Context :=
  {| request := r; response := response c; path := path c;
     handler := handler c; logger := logger c;
     requestCache := requestCache c; tong := tong c |}.

Definition with_response (r : Response) (c : Context) : Context :=
  {| request := request c; response := r; path := path c;
     handler := handler c; logger := logger c;
     requestCache := requestCache c; tong := tong c |}.

(** *** utils *)

Definition Reset (r : http.Request) (w : http.ResponseWriter)
    (logger0 : option addr) (cache : option addr) (c : Context) : Context :=
  {| request := r;
     response := Response_Reset w (response c);
     path := "";
     handler := Some NotFoundHandler;
     logger := logger0;
     requestCache := cache;
     tong := tong c |}.

Definition Redirect (code : Z) (url : string) (c : Context)
  : option error * Context :=
  if (code <? http.StatusMultipleChoices) || (code >? http.StatusPermanentRedirect)
  then (Some (errors.New "redirect code error"), c)
  else
    let head := Response_Header (response c) in
    let r1 := Response_Header_store (http.Header_Set common.HeaderLocation url head)
                (response c) in
    let r2 := Response_WriteHeader code r1 in
    (None, with_response r2 c).

(** *** Getter *)

Definition Request_ (c : Context) : http.Request := request c.
Definition Response_ (c : Context) : Response := response c.
Definition Path (c : Context) : string := path c.
Definition Handler (c : Context) : option HandlerFunc := handler c.
Definition RequestCache (c : Context) : option addr := requestCache c.
Definition Logger (c : Context) : option addr := logger c.

(** *** Writer *)

Definition WriteContentType (value : string) (c : Context) : Context :=
  let head := Response_Header (response c) in
  if is_empty (http.Header_Get common.HeaderContentType head)
  then with_response
         (Response_Header_store
            (http.Header_Set common.HeaderContentType value head) (response c)) c
  else c.

Definition Blob (code : Z) (contentType : string) (data : list byte) (c : Context)
  : option error * Context :=
  let c1 := with_response (Response_WriteHeader code (response c)) c in
  let c2 := WriteContentType contentType c1 in
  let '(_, err, r) := Response_Write data (response c2) in
  (err, with_response r c2).

(** [json.Encoder.Encode] on the response: nothing is written when the
    value has no encoding; the error of the write is the result. *)
Definition Encode `{json.Codec any} (enc : json.Encoder) (v : any) (r : Response)
  : option error * Response :=
  match json.encoding enc v with
  | inr e => (Some e, r)
  | inl b => let '(_, err, r') := Response_Write b r in (err, r')
  end.

Definition Json `{json.Codec any} (code : Z) (value : any) (indent : string)
    (c : Context) : option error * Context :=
  let enc := json.NewEncoder in
  let enc := if negb (is_empty indent) then json.SetIndent "" indent enc else enc in
  let c1 := WriteContentType common.MIMEApplicationJSONCharsetUTF8 c in
  let c2 := with_response (Response_Status_store code (response c1)) c1 in
  let '(err, r) := Encode enc value (response c2) in
  (err, with_response r c2).

Definition String_ (code : Z) (value : string) (c : Context)
  : option error * Context :=
  Blob code common.MIMETextPlainCharsetUTF8 (bytes_of value) c.

(** *** Query Reader *)

Definition QueryInt (key : string) (defaultValue : Z) (c : Context) : Z :=
  let value := url.Get key (url.Query (http.URL (request c))) in
  if is_empty value then defaultValue
  else
    let '(ret, err) := strconv.Atoi value in
    match err with
    | Some _ => defaultValue
    | None => ret
    end.

Definition QueryFloat `{strconv.FloatParser float64} (key : string)
    (defaultValue : float64) (c : Context) : float64 :=
  let value := url.Get key (url.Query (http.URL (request c))) in
  if is_empty value then defaultValue
  else
    let '(ret, err) := strconv.ParseFloat value 64 in
    match err with
    | Some _ => defaultValue
    | None => ret
    end.

Definition QueryString (key : string) (defaultValue : string) (c : Context) : string :=
  let value := url.Get key (url.Query (http.URL (request c))) in
  if is_empty value then defaultValue else value.

Definition QueryParams (c : Context) : url.Values :=
  url.Query (http.URL (request c)).

(** *** Post Reader *)

Definition PostInt `{http.FormParser} (key : string) (defaultValue : Z)
    (c : Context) : Z * Context :=
  let '(value, r) := http.PostFormValue key (request c) in
  let c1 := with_request r c in
  if is_empty value then (defaultValue, c1)
  else
    let '(ret, err) := strconv.Atoi value in
    match err with
    | Some _ => (defaultValue, c1)
    | None => (ret, c1)
    end.

Definition PostFloat `{http.FormParser} `{strconv.FloatParser float64}
    (key : string) (defaultValue : float64) (c : Context) : float64 * Context :=
  let '(value, r) := http.PostFormValue key (request c) in
  let c1 := with_request r c in
  if is_empty value then (defaultValue, c1)
  else
    let '(ret, err) := strconv.ParseFloat value 64 in
    match err with
    | Some _ => (defaultValue, c1)
    | None => (ret, c1)
    end.

Definition PostString `{http.FormParser} (key : string) (defaultValue : string)
    (c : Context) : string * Context :=
  let '(value, r) := http.PostFormValue key (request c) in
  let c1 := with_request r c in
  if is_empty value then (defaultValue, c1) else (value, c1).

(** The form values and the error; the first is [None] for nil. *)
Definition FormParams `{http.FormParser} (c : Context)
  : option url.Values * option error * Context :=
  if gostrings.HasPrefix
       (http.Header_Get HeaderContentType (http.Header_ (request c)))
       MIMEMultipartPOSTForm
  then
    let '(err, r) := http.ParseMultipartForm defaultMemory (request c) in
    match err with
    | Some e => (None, Some e, with_request r c)
    | None => (http.Form r, None, with_request r c)
    end
  else
    let '(err, r) := http.ParseForm (request c) in
    match err with
    | Some e => (None, Some e, with_request r c)
    | None => (http.Form r, None, with_request r c)
    end.

(** *** Bind *)

(** What a call of the binder leaves behind: its error, the target it
    filled, and the request and the response, which it reaches through the
    pointers of the copy of the context it is given. *)
Record Bound (any : Type) := {
  bound_err : option error;
  bound_target : any;
  bound_request : http.Request;
  bound_response : Response
}.
Arguments bound_err {any}.
Arguments bound_target {any}.
Arguments bound_request {any}.
Arguments bound_response {any}.

(** Modelled from the spec: the framework instance [Tong], declared outside
    context.go, of which the context reaches the binder only:
    [Binder.Bind(target, contextValue) error]. *)
Record Tong (any : Type) := {
  Binder_Bind : any -> Context -> Bound any
}.
Arguments Binder_Bind {any}.

(** The objects of type [Tong], by address. *)
Definition Heap (any : Type) : Type := addr -> Tong any.

Definition Bind {any : Type} (heap : Heap any) (i : any) (c : Context)
  : option error * any * Context :=
  let b := Binder_Bind (heap (tong c)) i c in
  (bound_err b, bound_target b,
   with_response (bound_response b) (with_request (bound_request b) c)).

(** Modelled from the spec: the router, declared outside context.go, sets
    [path] and [handler] on the context before the handler is invoked, and
    the handler it sets is not nil: it assigns the two fields and no
    other. *)
Definition route (matched : string) (h : HandlerFunc) (c : Context) : Context :=
  {| request := request c; response := response c; path := matched;
     handler := Some h; logger := logger c;
     requestCache := requestCache c; tong := tong c |}.

(** *** The operations of a context *)

(** A call of a method of [Context], with its arguments. *)
Inductive Op (any float64 : Type) :=
  | OpReset (r : http.Request) (w : http.ResponseWriter)
            (logger0 cache : option addr)
  | OpRedirect (code : Z) (url : string)
  | OpRequest | OpResponse | OpPath | OpHandler | OpRequestCache | OpLogger
  | OpWriteContentType (value : string)
  | OpBlob (code : Z) (contentType : string) (data : list byte)
  | OpJson (code : Z) (value : any) (indent : string)
  | OpString (code : Z) (value : string)
  | OpQueryInt (key : string) (defaultValue : Z)
  | OpQueryFloat (key : string) (defaultValue : float64)
  | OpQueryString (key defaultValue : string)
  | OpQueryParams
  | OpPostInt (key : string) (defaultValue : Z)
  | OpPostFloat (key : string) (defaultValue : float64)
  | OpPostString (key defaultValue : string)
  | OpFormParams
  | OpBind (i : any).
Arguments OpReset {any float64}.
Arguments OpRedirect {any float64}.
Arguments OpRequest {any float64}.
Arguments OpResponse {any float64}.
Arguments OpPath {any float64}.
Arguments OpHandler {any float64}.
Arguments OpRequestCache {any float64}.
Arguments OpLogger {any float64}.
Arguments OpWriteContentType {any float64}.
Arguments OpBlob {any float64}.
Arguments OpJson {any float64}.
Arguments OpString {any float64}.
Arguments OpQueryInt {any float64}.
Arguments OpQueryFloat {any float64}.
Arguments OpQueryString {any float64}.
Arguments OpQueryParams {any float64}.
Arguments OpPostInt {any float64}.
Arguments OpPostFloat {any float64}.
Arguments OpPostString {any float64}.
Arguments OpFormParams {any float64}.
Arguments OpBind {any float64}.

Section Run.
Context {any float64 : Type}.
Context `{!json.Codec any} `{!strconv.FloatParser float64} `{!http.FormParser}.
Variable heap : Heap any.

(** The context after the call. *)
Definition exec (op : Op any float64) (c : Context) : Context :=
  match op with
  | OpReset r w l k => Reset r w l k c
  | OpRedirect code url => snd (Redirect code url c)
  | OpRequest | OpResponse | OpPath | OpHandler | OpRequestCache | OpLogger => c
  | OpWriteContentType value => WriteContentType value c
  | OpBlob code contentType data => snd (Blob code contentType data c)
  | OpJson code value indent => snd (Json code value indent c)
  | OpString code value => snd (String_ code value c)
  | OpQueryInt _ _ | OpQueryFloat _ _ | OpQueryString _ _ | OpQueryParams => c
  | OpPostInt key d => snd (PostInt key d c)
  | OpPostFloat key d => snd (PostFloat key d c)
  | OpPostString key d => snd (PostString key d c)
  | OpFormParams => snd (FormParams c)
  | OpBind i => snd (Bind heap i c)
  end.

End Run.

(** A sequence of resets, each with its own request, writer, logger and
    cache. *)
Definition ResetArgs : Type :=
  http.Request * http.ResponseWriter * option addr * option addr.

Definition Resets (args : list ResetArgs) (c : Context) : Context :=
  fold_left (fun c '(r, w, l, k) => Reset r w l k c) args c.

(** The codes of the status lines among the calls a writer received. *)
Definition statusLines (calls : list http.Call) : list Z :=
  flat_map (fun call => match call with
                        | http.CallWriteHeader code _ => [code]
                        | http.CallWrite _ => []
                        end) calls.

(** The header map and the calls seen through a context. *)
Definition headerOf (c : Context) : http.Header := Response_Header (response c).
Definition callsOf (c : Context) : list http.Call := http.rw_calls (Writer (response c)).
Definition contentTypeOf (c : Context) : string :=
  http.Header_Get common.HeaderContentType (headerOf c).

(** Methods of a context called one after the other. *)
Definition run {any float64 : Type} `{!json.Codec any}
    `{!strconv.FloatParser float64} `{!http.FormParser}
    (heap : Heap any) (ops : list (Op any float64)) (c : Context) : Context :=
  fold_left (fun c op => exec heap op c) ops c.

Definition is_Reset {any float64 : Type} (op : Op any float64) : bool :=
  match op with
  | OpReset _ _ _ _ => true
  | _ => false
  end.

(** The methods that write the response and the methods that read the
    request. *)
Definition is_writer {any float64 : Type} (op : Op any float64) : bool :=
  match op with
  | OpRedirect _ _ | OpWriteContentType _ | OpBlob _ _ _ | OpJson _ _ _
  | OpString _ _ => true
  | _ => false
  end.

Definition is_reader {any float64 : Type} (op : Op any float64) : bool :=
  match op with
  | OpQueryInt _ _ | OpQueryFloat _ _ | OpQueryString _ _ | OpQueryParams
  | OpPostInt _ _ | OpPostFloat _ _ | OpPostString _ _ | OpFormParams => true
  | _ => false
  end.

(** The fields of a context that no writer and no reader assigns. *)
Definition frame (c : Context)
  : string * option HandlerFunc * option addr * option addr * addr :=
  (Path c, Handler c, Logger c, RequestCache c, tong c).

(** [WriteContentType] called with each value in turn. *)
Definition WriteContentTypes (values : list string) (c : Context) : Context :=
  fold_left (fun c value => WriteContentType value c) values c.

(** The first string of the list that is not empty, [""] when there is
    none. *)
Definition firstNonEmpty (values : list string) : string :=
  hd "" (List.filter (fun value => negb (is_empty value)) values).

(** ** A small world to run the definitions in *)

Module sample.
(** A writer on a healthy connection and one on a closed connection. *)
Definition writer : http.ResponseWriter :=
  {| http.rw_header := ∅; http.rw_calls := []; http.rw_broken := None |}.

Definition brokenPipe : error := ForeignError "write: broken pipe" 32.

Definition closedWriter : http.ResponseWriter :=
  {| http.rw_header := ∅; http.rw_calls := [];
     http.rw_broken := Some brokenPipe |}.

(** A request with a query string, a content type and a body. *)
Definition req (query contentType body : string) : http.Request :=
  {| http.URL := {| url.RawQuery := query |};
     http.Header_ := http.Header_Set "Content-Type" contentType ∅;
     http.Body := bytes_of body;
     http.Form := None;
     http.PostForm := None |}.

(** A context as allocated for the pool, before its first reset. *)
Definition blank : Context :=
  {| request := req "" "" "";
     response := {| Writer := writer; Status := 0; Committed := false |};
     path := "";
     handler := None;
     logger := None;
     requestCache := None;
     tong := 1%N |}.

(** A context bound to a request. *)
Definition ctx (r : http.Request) (w : http.ResponseWriter) : Context :=
  Reset r w (Some 7%N) (Some 8%N) blank.

(** A context in the middle of a request: the router resolved a route, the
    handler set a header and redirected. *)
Definition routed : Context :=
  let c := ctx (req "x=1" "" "") writer in
  snd (Redirect 302 "/a"
         (WriteContentType MIMEHTML
            {| request := request c; response := response c; path := "/users";
               handler := Some (RouteHandler 3); logger := logger c;
               requestCache := requestCache c; tong := tong c |})).

Definition noMultipart : error := ForeignError "multipart: NextPart: EOF" 0.

(** Body parsers for URL-encoded bodies only: the body is read as a query
    string; a multipart parse fills the forms and then fails. *)
Definition parseForm (r : http.Request) : option error * http.Request :=
  match http.Form r with
  | Some _ => (None, r)
  | None =>
      let body := string_of_list_byte (http.Body r) in
      (None,
       {| http.URL := http.URL r;
          http.Header_ := http.Header_ r;
          http.Body := [];
          http.Form := Some (fold_left url.parsePair
                               (gostrings.pieces "&" (url.RawQuery (http.URL r)))
                               (url.ParseQuery body));
          http.PostForm := Some (url.ParseQuery body) |})
  end.

Definition parser : http.FormParser :=
  {| http.ParseMultipartForm := fun _ r => (Some noMultipart, snd (parseForm r));
     http.ParseForm := parseForm |}.

Definition unsupported : error := ForeignError "json: unsupported type" 0.

(** A value to encode is given by its compact encoding; [None] is a value
    without one (a channel). Indentation puts the indent in front. *)
Definition codec : json.Codec (option string) :=
  {| json.marshal := fun v => match v with
                              | Some s => inl (bytes_of s)
                              | None => inr unsupported
                              end;
     json.appendIndent := fun b prefix indent =>
                            inl (bytes_of prefix ++ bytes_of indent ++ b)%list |}.

(** Floats that are whole numbers. *)
Definition floats : strconv.FloatParser Z :=
  {| strconv.ParseFloat := fun s _ => strconv.Atoi s |}.

(** A binder that fills the target with the path of the context. *)
Definition binder : Tong (option string) :=
  {| Binder_Bind := fun _ c =>
       {| bound_err := None; bound_target := Some (path c);
          bound_request := request c; bound_response := response c |} |}.

Definition heap : Heap (option string) := fun _ => binder.
End sample.

(** * Properties *)

(** ** The runtime library *)

Lemma is_empty_true (s : string) : is_empty s = true <-> s = "".
Proof. destruct s; simpl; split; congruence. Qed.

Lemma is_empty_false (s : string) : is_empty s = false <-> s <> "".
Proof. destruct s; simpl; split; congruence. Qed.

Lemma Header_Get_Set (key value : string) (h : http.Header) :
  http.Header_Get key (http.Header_Set key value h) = value.
Proof.
  unfold http.Header_Get, http.Header_Set.
  by rewrite lookup_insert_eq.
Qed.

Lemma Header_Get_Set_other (key key' value : string) (h : http.Header) :
  textproto.CanonicalMIMEHeaderKey key <> textproto.CanonicalMIMEHeaderKey key' ->
  http.Header_Get key' (http.Header_Set key value h) = http.Header_Get key' h.
Proof.
  intros Hne. unfold http.Header_Get, http.Header_Set.
  by rewrite lookup_insert_ne.
Qed.

Lemma Header_Set_lookup (key value : string) (h : http.Header) :
  http.Header_Set key value h !! textproto.CanonicalMIMEHeaderKey key = Some [value].
Proof. unfold http.Header_Set. apply lookup_insert_eq. Qed.

Lemma statusLines_app (xs ys : list http.Call) :
  statusLines (xs ++ ys) = (statusLines xs ++ statusLines ys)%list.
Proof. unfold statusLines. apply flat_map_app. Qed.

Example Atoi_42 : strconv.Atoi "42" = (42, None).
Proof. reflexivity. Qed.

Example Atoi_abc : strconv.Atoi "abc" = (0, Some (NumError "Atoi" "abc" ErrSyntax)).
Proof. reflexivity. Qed.

Example Atoi_signed : strconv.Atoi "-9223372036854775808" = (strconv.minInt, None).
Proof. reflexivity. Qed.

Example Atoi_range :
  snd (strconv.Atoi "9223372036854775808")
  = Some (NumError "Atoi" "9223372036854775808" ErrRange).
Proof. reflexivity. Qed.

Example ParseQuery_first_value :
  url.Get "n" (url.ParseQuery "n=42&m=a+b&n=7") = "42".
Proof. vm_compute. reflexivity. Qed.

Example canonical_key :
  textproto.CanonicalMIMEHeaderKey "content-type" = "Content-Type".
Proof. reflexivity. Qed.

Example defaultMemory_value : defaultMemory = 33554432.
Proof. reflexivity. Qed.

(** ** Redirect *)

Lemma redirect_range (code : Z) :
  (code <? http.StatusMultipleChoices) || (code >? http.StatusPermanentRedirect) = false
  <-> 300 <= code <= 308.
Proof.
  unfold http.StatusMultipleChoices, http.StatusPermanentRedirect.
  rewrite orb_false_iff, Z.ltb_ge, Z.gtb_ltb, Z.ltb_ge. lia.
Qed.

(** C1. For a code in [300,308], [Redirect] returns nil, the Location
    header holds exactly the url, and the status line is written with the
    code, after the header was set. For a code outside, [Redirect] returns
    the error and the context, its headers included, is as before. *)
Theorem Redirect_in_and_out_of_range (code : Z) (url : string) (c : Context) :
  (300 <= code <= 308 ->
     let c' := snd (Redirect code url c) in
     fst (Redirect code url c) = None /\
     response c'
     = Response_WriteHeader code
         (Response_Header_store
            (http.Header_Set common.HeaderLocation url (headerOf c)) (response c)) /\
     headerOf c' = http.Header_Set common.HeaderLocation url (headerOf c) /\
     headerOf c' !! "Location" = Some [url] /\
     http.Header_Get common.HeaderLocation (headerOf c') = url /\
     callsOf c' = (callsOf c ++ [http.CallWriteHeader code (headerOf c')])%list /\
     Status (response c') = code) /\
  (~ 300 <= code <= 308 ->
     Redirect code url c = (Some (errors.New "redirect code error"), c)).
Proof.
  split; intros Hcode.
  - apply redirect_range in Hcode.
    unfold Redirect. rewrite Hcode. cbn.
    repeat split; try reflexivity.
    + apply (Header_Set_lookup common.HeaderLocation).
    + apply Header_Get_Set.
  - unfold Redirect.
    destruct ((code <? _) || (code >? _)) eqn:E; [reflexivity|].
    apply redirect_range in E. contradiction.
Qed.

Lemma Redirect_in_and_out_of_range_witness :
  (300 <= 302 <= 308 /\
   fst (Redirect 302 "/login" (sample.ctx (sample.req "" "" "") sample.writer)) = None /\
   http.Header_Get "Location"
     (headerOf (snd (Redirect 302 "/login"
                       (sample.ctx (sample.req "" "" "") sample.writer)))) = "/login") /\
  (~ 300 <= 200 <= 308 /\
   Redirect 200 "/login" sample.blank
   = (Some (errorString "redirect code error"), sample.blank)).
Proof.
  split.
  - split; [lia|].
    pose proof (proj1 (Redirect_in_and_out_of_range 302 "/login"
      (sample.ctx (sample.req "" "" "") sample.writer))) as H.
    destruct H as (H1 & _ & _ & _ & H4 & _); [lia|].
    split; [exact H1 | exact H4].
  - split; [lia|].
    apply (proj2 (Redirect_in_and_out_of_range 200 "/login" sample.blank)). lia.
Defined.

(** ** Query and post readers *)

Lemma Values_Get_absent (key : string) (vs : url.Values) :
  vs !! key = None -> url.Get key vs = "".
Proof. intros H. unfold url.Get. by rewrite H. Qed.

Lemma QueryInt_cases (key : string) (d : Z) (c : Context) :
  let q := url.Get key (url.Query (http.URL (request c))) in
  QueryInt key d c =
  if is_empty q then d
  else match snd (strconv.Atoi q) with
       | Some _ => d
       | None => fst (strconv.Atoi q)
       end.
Proof.
  unfold QueryInt. cbv zeta.
  destruct (is_empty _); [reflexivity|].
  by destruct (strconv.Atoi _) as [ret [e|]].
Qed.

Section Readers.
Context {float64 : Type} `{!strconv.FloatParser float64} `{!http.FormParser}.

Lemma QueryFloat_cases (key : string) (d : float64) (c : Context) :
  let q := url.Get key (url.Query (http.URL (request c))) in
  QueryFloat key d c =
  if is_empty q then d
  else match snd (strconv.ParseFloat q 64) with
       | Some _ => d
       | None => fst (strconv.ParseFloat q 64)
       end.
Proof.
  unfold QueryFloat. cbv zeta.
  destruct (is_empty _); [reflexivity|].
  by destruct (strconv.ParseFloat _ _) as [ret [e|]].
Qed.

Lemma PostInt_cases (key : string) (d : Z) (c : Context) :
  let p := fst (http.PostFormValue key (request c)) in
  PostInt key d c =
  (if is_empty p then d
   else match snd (strconv.Atoi p) with
        | Some _ => d
        | None => fst (strconv.Atoi p)
        end,
   with_request (snd (http.PostFormValue key (request c))) c).
Proof.
  unfold PostInt. cbv zeta.
  destruct (http.PostFormValue key (request c)) as [p r]. cbn [fst snd].
  destruct (is_empty p); [reflexivity|].
  by destruct (strconv.Atoi p) as [ret [e|]].
Qed.

Lemma PostFloat_cases (key : string) (d : float64) (c : Context) :
  let p := fst (http.PostFormValue key (request c)) in
  PostFloat key d c =
  (if is_empty p then d
   else match snd (strconv.ParseFloat p 64) with
        | Some _ => d
        | None => fst (strconv.ParseFloat p 64)
        end,
   with_request (snd (http.PostFormValue key (request c))) c).
Proof.
  unfold PostFloat. cbv zeta.
  destruct (http.PostFormValue key (request c)) as [p r]. cbn [fst snd].
  destruct (is_empty p); [reflexivity|].
  by destruct (strconv.ParseFloat p 64) as [ret [e|]].
Qed.

(** C2. Each of [QueryInt], [QueryFloat], [PostInt], [PostFloat] returns
    the default when the key has no value in its source and when the value
    does not parse, and the parsed number when it parses. The result is the
    number alone, so the two cases of the default look the same to the
    caller; what [PostInt] and [PostFloat] leave in the request is what the
    lookup of the key leaves there, whatever the value. *)
Theorem scalar_getters_default_or_parsed
    (key : string) (d : Z) (df : float64) (c : Context) :
  let query := url.Query (http.URL (request c)) in
  let q := url.Get key query in
  let p := fst (http.PostFormValue key (request c)) in
  (query !! key = None -> QueryInt key d c = d /\ QueryFloat key df c = df) /\
  (q = "" -> QueryInt key d c = d /\ QueryFloat key df c = df) /\
  (p = "" -> fst (PostInt key d c) = d /\ fst (PostFloat key df c) = df) /\
  (forall e, snd (strconv.Atoi q) = Some e -> QueryInt key d c = d) /\
  (forall e, snd (strconv.ParseFloat q 64) = Some e -> QueryFloat key df c = df) /\
  (forall e, snd (strconv.Atoi p) = Some e -> fst (PostInt key d c) = d) /\
  (forall e, snd (strconv.ParseFloat p 64) = Some e -> fst (PostFloat key df c) = df) /\
  (forall n, q <> "" -> strconv.Atoi q = (n, None) -> QueryInt key d c = n) /\
  (forall x, q <> "" -> strconv.ParseFloat q 64 = (x, None) -> QueryFloat key df c = x) /\
  (forall n, p <> "" -> strconv.Atoi p = (n, None) -> fst (PostInt key d c) = n) /\
  (forall x, p <> "" -> strconv.ParseFloat p 64 = (x, None) ->
             fst (PostFloat key df c) = x) /\
  snd (PostInt key d c) = with_request (snd (http.PostFormValue key (request c))) c /\
  snd (PostFloat key df c) = with_request (snd (http.PostFormValue key (request c))) c.
Proof.
  cbv zeta.
  rewrite (QueryInt_cases key d c), (QueryFloat_cases key df c),
    (PostInt_cases key d c), (PostFloat_cases key df c).
  cbv zeta. cbn [fst snd].
  set (q := url.Get key _). set (p := fst (http.PostFormValue key _)).
  repeat match goal with |- _ /\ _ => split end; try reflexivity.
  - intros Habs. apply Values_Get_absent in Habs. fold q in Habs. by rewrite Habs.
  - by intros ->.
  - by intros ->.
  - intros e ->. by destruct (is_empty q).
  - intros e ->. by destruct (is_empty q).
  - intros e ->. by destruct (is_empty p).
  - intros e ->. by destruct (is_empty p).
  - intros n Hq ->. apply is_empty_false in Hq. by rewrite Hq.
  - intros x Hq ->. apply is_empty_false in Hq. by rewrite Hq.
  - intros n Hp ->. apply is_empty_false in Hp. by rewrite Hp.
  - intros x Hp ->. apply is_empty_false in Hp. by rewrite Hp.
Qed.
End Readers.

Lemma scalar_getters_default_or_parsed_witness :
  let get q := sample.ctx (sample.req q "" "") sample.writer in
  let post b := sample.ctx (sample.req "" MIMEPOSTForm b) sample.writer in
  (url.Query (http.URL (request (get ""))) !! "n" = None /\
   QueryInt "n" 7 (get "") = 7) /\
  (snd (strconv.Atoi (url.Get "n" (url.Query (http.URL (request (get "n=abc"))))))
   = Some (NumError "Atoi" "abc" ErrSyntax) /\
   QueryInt "n" 7 (get "n=abc") = 7) /\
  (url.Get "n" (url.Query (http.URL (request (get "n=42")))) <> "" /\
   strconv.Atoi (url.Get "n" (url.Query (http.URL (request (get "n=42"))))) = (42, None) /\
   QueryInt "n" 7 (get "n=42") = 42) /\
  (snd (strconv.Atoi (fst (@http.PostFormValue sample.parser "n" (request (post "n=abc")))))
   = Some (NumError "Atoi" "abc" ErrSyntax) /\
   fst (@PostInt sample.parser "n" 7 (post "n=abc")) = 7).
Proof.
  cbv zeta.
  split; [|split; [|split]].
  - assert (Habs : url.Query (http.URL (request
                     (sample.ctx (sample.req "" "" "") sample.writer))) !! "n" = None)
      by (vm_compute; reflexivity).
    split; [exact Habs|].
    exact (proj1 (proj1 (@scalar_getters_default_or_parsed Z sample.floats sample.parser
                           "n" 7 7 _) Habs)).
  - assert (Hbad : snd (strconv.Atoi (url.Get "n" (url.Query (http.URL (request
                     (sample.ctx (sample.req "n=abc" "" "") sample.writer))))))
                   = Some (NumError "Atoi" "abc" ErrSyntax))
      by (vm_compute; reflexivity).
    split; [exact Hbad|].
    pose proof (@scalar_getters_default_or_parsed Z sample.floats sample.parser
                  "n" 7 7 (sample.ctx (sample.req "n=abc" "" "") sample.writer)) as H.
    cbv zeta in H. destruct H as (_ & _ & _ & H & _).
    exact (H _ Hbad).
  - assert (Hne : url.Get "n" (url.Query (http.URL (request
                     (sample.ctx (sample.req "n=42" "" "") sample.writer)))) <> "")
      by (vm_compute; discriminate).
    assert (Hok : strconv.Atoi (url.Get "n" (url.Query (http.URL (request
                     (sample.ctx (sample.req "n=42" "" "") sample.writer)))))
                  = (42, None))
      by (vm_compute; reflexivity).
    split; [exact Hne|]. split; [exact Hok|].
    pose proof (@scalar_getters_default_or_parsed Z sample.floats sample.parser
                  "n" 7 7 (sample.ctx (sample.req "n=42" "" "") sample.writer)) as H.
    cbv zeta in H. destruct H as (_ & _ & _ & _ & _ & _ & _ & H & _).
    exact (H 42 Hne Hok).
  - assert (Hbad : snd (strconv.Atoi (fst (@http.PostFormValue sample.parser "n"
                     (request (sample.ctx (sample.req "" MIMEPOSTForm "n=abc")
                                 sample.writer)))))
                   = Some (NumError "Atoi" "abc" ErrSyntax))
      by (vm_compute; reflexivity).
    split; [exact Hbad|].
    pose proof (@scalar_getters_default_or_parsed Z sample.floats sample.parser
                  "n" 7 7 (sample.ctx (sample.req "" MIMEPOSTForm "n=abc") sample.writer))
      as H.
    cbv zeta in H. destruct H as (_ & _ & _ & _ & _ & H & _).
    exact (H _ Hbad).
Defined.

(** ** WriteContentType *)

Lemma WriteContentType_unset (value : string) (c : Context) :
  contentTypeOf c = "" ->
  WriteContentType value c
  = with_response
      (Response_Header_store
         (http.Header_Set common.HeaderContentType value (headerOf c)) (response c)) c.
Proof.
  unfold contentTypeOf, headerOf, WriteContentType. cbv zeta.
  by intros ->.
Qed.

Lemma WriteContentType_kept (value : string) (c : Context) :
  contentTypeOf c <> "" -> WriteContentType value c = c.
Proof.
  unfold contentTypeOf, headerOf, WriteContentType. cbv zeta.
  intros Hset. apply is_empty_false in Hset. by rewrite Hset.
Qed.

Lemma WriteContentType_header (value : string) (c : Context) :
  headerOf (WriteContentType value c)
  = if is_empty (contentTypeOf c)
    then http.Header_Set common.HeaderContentType value (headerOf c)
    else headerOf c.
Proof.
  unfold contentTypeOf, headerOf, WriteContentType. cbv zeta.
  by destruct (is_empty _).
Qed.

Lemma WriteContentType_calls (value : string) (c : Context) :
  callsOf (WriteContentType value c) = callsOf c.
Proof.
  unfold callsOf, WriteContentType. cbv zeta. by destruct (is_empty _).
Qed.

Lemma WriteContentType_connection (value : string) (c : Context) :
  http.rw_broken (Writer (response (WriteContentType value c)))
  = http.rw_broken (Writer (response c)).
Proof.
  unfold WriteContentType. cbv zeta.
  by destruct (is_empty (http.Header_Get _ _)).
Qed.

Lemma WriteContentType_sets (value : string) (c : Context) :
  contentTypeOf c = "" -> contentTypeOf (WriteContentType value c) = value.
Proof.
  intros Hun. rewrite (WriteContentType_unset _ _ Hun).
  unfold contentTypeOf, headerOf. cbn. apply Header_Get_Set.
Qed.

(** The first value is the empty string: the header still reads as empty
    after the first call, and the second call sets it. *)
Lemma WriteContentType_empty_then_html :
  contentTypeOf
    (WriteContentType "text/html"
       (WriteContentType "" (sample.ctx (sample.req "" "" "") sample.writer)))
  = "text/html".
Proof. vm_compute. reflexivity. Qed.

(** C3, as stated, at the first value [""] and the second ["text/html"] on
    a response with no Content-Type: the two values differ, and the header
    ends up equal to the second, not to the first. *)
Lemma WriteContentType_first_write_wins_counterexample :
  let c := sample.ctx (sample.req "" "" "") sample.writer in
  let first := "" in
  let second := "text/html" in
  first <> second /\
  contentTypeOf c = "" /\
  contentTypeOf (WriteContentType second (WriteContentType first c)) <> first /\
  contentTypeOf (WriteContentType second (WriteContentType first c)) = second.
Proof.
  cbv zeta. rewrite WriteContentType_empty_then_html.
  repeat match goal with |- _ /\ _ => split end;
    first [discriminate | reflexivity].
Qed.

(** C3, amended. [WriteContentType] sets the Content-Type header to the
    value when the header reads as empty and leaves the context as it is
    otherwise; on a response whose Content-Type reads as empty, a first call
    with a value that is not the empty string wins over any second call; a
    call repeated with the same value changes nothing more. *)
Theorem WriteContentType_first_write_wins (v1 v2 : string) (c : Context) :
  (contentTypeOf c = "" ->
     headerOf (WriteContentType v1 c)
     = http.Header_Set common.HeaderContentType v1 (headerOf c) /\
     contentTypeOf (WriteContentType v1 c) = v1) /\
  (contentTypeOf c <> "" -> WriteContentType v1 c = c) /\
  (contentTypeOf c = "" -> v1 <> "" ->
     WriteContentType v2 (WriteContentType v1 c) = WriteContentType v1 c /\
     contentTypeOf (WriteContentType v2 (WriteContentType v1 c)) = v1) /\
  WriteContentType v1 (WriteContentType v1 c) = WriteContentType v1 c.
Proof.
  pose proof (WriteContentType_sets v1 c) as Hfirst.
  repeat match goal with |- _ /\ _ => split end.
  - intros Hun. split; [|by apply Hfirst].
    rewrite WriteContentType_header, Hun. reflexivity.
  - apply WriteContentType_kept.
  - intros Hun Hv1. specialize (Hfirst Hun).
    assert (Hset : contentTypeOf (WriteContentType v1 c) <> "") by congruence.
    rewrite (WriteContentType_kept v2 _ Hset). by split.
  - destruct (is_empty (contentTypeOf c)) eqn:E.
    + apply is_empty_true in E. specialize (Hfirst E).
      destruct (is_empty v1) eqn:E1.
      * apply is_empty_true in E1. subst v1.
        rewrite (WriteContentType_unset "" (WriteContentType "" c) Hfirst).
        rewrite (WriteContentType_unset "" c E).
        unfold headerOf, Response_Header_store, Response_Header, with_response,
          http.rw_store, http.Header_Set. cbn.
        by rewrite insert_insert_eq.
      * apply is_empty_false in E1.
        apply WriteContentType_kept. congruence.
    + apply is_empty_false in E.
      rewrite (WriteContentType_kept v1 c E). by apply WriteContentType_kept.
Qed.

Lemma WriteContentType_first_write_wins_witness :
  let c := sample.ctx (sample.req "" "" "") sample.writer in
  contentTypeOf c = "" /\ MIMEHTML <> "" /\
  contentTypeOf (WriteContentType MIMEJSON (WriteContentType MIMEHTML c)) = MIMEHTML.
Proof.
  cbv zeta.
  assert (Hun : contentTypeOf (sample.ctx (sample.req "" "" "") sample.writer) = "")
    by (vm_compute; reflexivity).
  assert (Hv : MIMEHTML <> "") by (vm_compute; discriminate).
  split; [exact Hun|]. split; [exact Hv|].
  pose proof (WriteContentType_first_write_wins MIMEHTML MIMEJSON
                (sample.ctx (sample.req "" "" "") sample.writer)) as H.
  destruct H as (_ & _ & H & _).
  exact (proj2 (H Hun Hv)).
Defined.

(** ** Reset *)

(** C4. After [Reset] the request, the logger and the cache are the new
    ones, the path is empty, the handler is the not-found handler and the
    response wraps the new writer, whose header map is the one seen through
    the context; the state after [Reset] is the same whatever the context
    held before, the framework instance apart. *)
Theorem Reset_rebinds_all (r : http.Request) (w : http.ResponseWriter)
    (l k : option addr) (c : Context) :
  let c' := Reset r w l k c in
  Request_ c' = r /\ Logger c' = l /\ RequestCache c' = k /\
  Path c' = "" /\ Handler c' = Some NotFoundHandler /\
  Writer (Response_ c') = w /\ headerOf c' = http.rw_header w /\
  callsOf c' = http.rw_calls w /\ Committed (Response_ c') = false /\
  (forall c0 : Context, tong c0 = tong c -> Reset r w l k c0 = c').
Proof.
  cbv zeta.
  repeat match goal with |- _ /\ _ => split end; try reflexivity.
  intros c0 Htong. unfold Reset, Response_Reset. by rewrite Htong.
Qed.

Lemma Reset_rebinds_all_witness :
  tong sample.routed = tong sample.blank /\
  Reset (sample.req "y=2" "" "") sample.writer None None sample.routed
  = Reset (sample.req "y=2" "" "") sample.writer None None sample.blank.
Proof.
  assert (Htong : tong sample.routed = tong sample.blank) by reflexivity.
  split; [exact Htong|].
  pose proof (Reset_rebinds_all (sample.req "y=2" "" "") sample.writer None None
                sample.blank) as H.
  cbv zeta in H.
  exact (proj2 (proj2 (proj2 (proj2 (proj2 (proj2 (proj2 (proj2 (proj2 H))))))))
           _ Htong).
Defined.

(** ** Blob and String *)

Lemma Blob_cases (code : Z) (contentType : string) (data : list byte) (c : Context) :
  let sent := http.CallWriteHeader code (headerOf c) in
  let out := snd (Blob code contentType data c) in
  headerOf out = headerOf (WriteContentType contentType c) /\
  Status (response out) = code /\
  match http.rw_broken (Writer (response c)) with
  | None => fst (Blob code contentType data c) = None /\
            callsOf out = (callsOf c ++ [sent; http.CallWrite data])%list
  | Some e => fst (Blob code contentType data c) = Some e /\
              callsOf out = (callsOf c ++ [sent])%list
  end.
Proof.
  cbv zeta. unfold Blob, WriteContentType. cbv zeta.
  change (http.Header_Get common.HeaderContentType
            (Response_Header (response
               (with_response (Response_WriteHeader code (response c)) c))))
    with (contentTypeOf c).
  change (http.Header_Get common.HeaderContentType (Response_Header (response c)))
    with (contentTypeOf c).
  unfold Response_Write, http.rw_Write, callsOf, headerOf.
  destruct (is_empty (contentTypeOf c)); cbn;
    destruct (http.rw_broken (Writer (response c))) as [e|]; cbn;
    rewrite <- ?app_assoc; repeat split; reflexivity.
Qed.

(** C6. [Blob] writes the status line with the code first (the header map
    that goes out with it is the one from before the call), then sets the
    Content-Type through the guarded setter, then writes the data as they
    are; it returns nil when the write succeeds and the error of the write
    when it fails. *)
Theorem Blob_status_then_type_then_data
    (code : Z) (contentType : string) (data : list byte) (c : Context) :
  let sent := http.CallWriteHeader code (headerOf c) in
  let out := snd (Blob code contentType data c) in
  response out
  = snd (Response_Write data
           (response (WriteContentType contentType
                        (with_response (Response_WriteHeader code (response c)) c)))) /\
  headerOf out = headerOf (WriteContentType contentType c) /\
  (contentTypeOf c = "" -> contentTypeOf out = contentType) /\
  (contentTypeOf c <> "" -> headerOf out = headerOf c) /\
  Status (response out) = code /\
  (http.rw_broken (Writer (response c)) = None ->
     fst (Blob code contentType data c) = None /\
     callsOf out = (callsOf c ++ [sent; http.CallWrite data])%list) /\
  (forall e, http.rw_broken (Writer (response c)) = Some e ->
     fst (Blob code contentType data c) = Some e /\
     callsOf out = (callsOf c ++ [sent])%list).
Proof.
  cbv zeta.
  destruct (Blob_cases code contentType data c) as (Hh & Hs & Hw).
  repeat match goal with |- _ /\ _ => split end.
  - unfold Blob. cbv zeta. by destruct (Response_Write data _) as [[n err] r].
  - exact Hh.
  - intros Hun. unfold contentTypeOf at 1. rewrite Hh.
    apply (WriteContentType_sets contentType c Hun).
  - intros Hset. rewrite Hh. by rewrite (WriteContentType_kept _ _ Hset).
  - exact Hs.
  - intros Hok. by rewrite Hok in Hw.
  - intros e Hbroken. by rewrite Hbroken in Hw.
Qed.

Lemma Blob_status_then_type_then_data_witness :
  let png := bytes_of "PNG" in
  let healthy := sample.ctx (sample.req "" "" "") sample.writer in
  let closed := sample.ctx (sample.req "" "" "") sample.closedWriter in
  (http.rw_broken (Writer (response healthy)) = None /\
   fst (Blob 200 "image/png" png healthy) = None /\
   callsOf (snd (Blob 200 "image/png" png healthy))
   = [http.CallWriteHeader 200 ∅; http.CallWrite png]) /\
  (http.rw_broken (Writer (response closed)) = Some sample.brokenPipe /\
   fst (Blob 200 "image/png" png closed) = Some sample.brokenPipe).
Proof.
  cbv zeta. split.
  - split; [reflexivity|].
    pose proof (Blob_status_then_type_then_data 200 "image/png" (bytes_of "PNG")
                  (sample.ctx (sample.req "" "" "") sample.writer)) as H.
    cbv zeta in H. destruct H as (_ & _ & _ & _ & _ & H & _).
    exact (H eq_refl).
  - split; [reflexivity|].
    pose proof (Blob_status_then_type_then_data 200 "image/png" (bytes_of "PNG")
                  (sample.ctx (sample.req "" "" "") sample.closedWriter)) as H.
    cbv zeta in H. destruct H as (_ & _ & _ & _ & _ & _ & H).
    exact (proj1 (H sample.brokenPipe eq_refl)).
Defined.

Lemma bytes_of_inverse (s : string) : string_of_list_byte (bytes_of s) = s.
Proof. apply string_of_list_byte_of_string. Qed.

(** C8. [String] is [Blob] with the plain-text content type and the bytes
    of the string: the two calls return the same error and leave the same
    context, so the same header, status, calls and body; spelled out, the
    status line goes out with the code, the Content-Type is set through the
    guarded setter, and the bytes written are those of the string. *)
Theorem String_is_Blob_of_plain_text (code : Z) (value : string) (c : Context) :
  let out := snd (String_ code value c) in
  String_ code value c
  = Blob code common.MIMETextPlainCharsetUTF8 (bytes_of value) c /\
  string_of_list_byte (bytes_of value) = value /\
  headerOf out = headerOf (WriteContentType common.MIMETextPlainCharsetUTF8 c) /\
  Status (response out) = code /\
  match http.rw_broken (Writer (response c)) with
  | None =>
      fst (String_ code value c) = None /\
      callsOf out = (callsOf c ++ [http.CallWriteHeader code (headerOf c);
                                   http.CallWrite (bytes_of value)])%list
  | Some e =>
      fst (String_ code value c) = Some e /\
      callsOf out = (callsOf c ++ [http.CallWriteHeader code (headerOf c)])%list
  end.
Proof.
  cbv zeta. split; [reflexivity|]. split; [apply bytes_of_inverse|].
  unfold String_.
  apply (Blob_cases code common.MIMETextPlainCharsetUTF8 (bytes_of value) c).
Qed.

(** ** Json *)

Section Encoding.
Context {any : Type} `{!json.Codec any}.

Lemma Json_cases (code : Z) (value : any) (indent : string) (c : Context) :
  let enc := if is_empty indent then json.NewEncoder
             else json.SetIndent "" indent json.NewEncoder in
  let typed := WriteContentType common.MIMEApplicationJSONCharsetUTF8 c in
  let out := snd (Json code value indent c) in
  headerOf out = headerOf typed /\
  Status (response out) = code /\
  match json.encoding enc value with
  | inr e => fst (Json code value indent c) = Some e /\ callsOf out = callsOf c
  | inl b =>
      match http.rw_broken (Writer (response c)) with
      | None => fst (Json code value indent c) = None /\
                callsOf out = (callsOf c ++ [http.CallWrite b])%list
      | Some e => fst (Json code value indent c) = Some e /\ callsOf out = callsOf c
      end
  end.
Proof.
  cbv zeta. unfold Json, Encode. cbv zeta.
  replace (if negb (is_empty indent)
           then json.SetIndent "" indent json.NewEncoder else json.NewEncoder)
    with (if is_empty indent then json.NewEncoder
          else json.SetIndent "" indent json.NewEncoder)
    by (by destruct (is_empty indent)).
  set (enc := if is_empty indent then _ else _).
  pose proof (WriteContentType_calls common.MIMEApplicationJSONCharsetUTF8 c) as Hcalls.
  pose proof (WriteContentType_connection common.MIMEApplicationJSONCharsetUTF8 c)
    as Hbroken.
  set (typed := WriteContentType _ c) in *.
  unfold callsOf in *.
  destruct (json.encoding enc value) as [b|e]; cbn.
  - unfold Response_Write, http.rw_Write. cbn. rewrite Hbroken.
    destruct (http.rw_broken (Writer (response c))) as [e|]; cbn;
      rewrite ?Hcalls; repeat split; reflexivity.
  - rewrite Hcalls. repeat split; reflexivity.
Qed.

(** What [Json] does to the response: the guarded setter, the assignment
    of [Status], and one [Write] when the value has an encoding; there is
    no call of [WriteHeader]. *)
Lemma Json_response (code : Z) (value : any) (indent : string) (c : Context) :
  let enc := if is_empty indent then json.NewEncoder
             else json.SetIndent "" indent json.NewEncoder in
  let typed := WriteContentType common.MIMEApplicationJSONCharsetUTF8 c in
  response (snd (Json code value indent c))
  = match json.encoding enc value with
    | inl b => snd (Response_Write b (Response_Status_store code (response typed)))
    | inr _ => Response_Status_store code (response typed)
    end.
Proof.
  cbv zeta. unfold Json, Encode. cbv zeta.
  replace (if negb (is_empty indent)
           then json.SetIndent "" indent json.NewEncoder else json.NewEncoder)
    with (if is_empty indent then json.NewEncoder
          else json.SetIndent "" indent json.NewEncoder)
    by (by destruct (is_empty indent)).
  destruct (json.encoding _ value) as [b|e]; cbn [response with_response snd].
  - by destruct (Response_Write b _) as [[n err] r].
  - reflexivity.
Qed.

(** C5. [Json] sets the Content-Type, when it reads as empty, to the
    JSON-with-UTF8-charset identifier, stores the code in [Status], and
    asks the writer for no status line: its calls on the response are the
    guarded setter, the assignment of [Status] and one [Write]. It writes
    the encoding of the value and a newline, as they are when the indent is
    empty and re-indented with the empty prefix and the indent otherwise; a
    value that has no encoding gives the encoder's error, and nothing is
    written. *)
Theorem Json_type_status_encoding
    (code : Z) (value : any) (indent : string) (c : Context) :
  let out := snd (Json code value indent c) in
  let err := fst (Json code value indent c) in
  let healthy := http.rw_broken (Writer (response c)) = None in
  let enc := if is_empty indent then json.NewEncoder
             else json.SetIndent "" indent json.NewEncoder in
  let typed := WriteContentType common.MIMEApplicationJSONCharsetUTF8 c in
  response out
  = match json.encoding enc value with
    | inl b => snd (Response_Write b (Response_Status_store code (response typed)))
    | inr _ => Response_Status_store code (response typed)
    end /\
  (contentTypeOf c = "" -> contentTypeOf out = common.MIMEApplicationJSONCharsetUTF8) /\
  (contentTypeOf c <> "" -> headerOf out = headerOf c) /\
  Status (response out) = code /\
  statusLines (callsOf out) = statusLines (callsOf c) /\
  (forall b, indent = "" -> json.marshal value = inl b -> healthy ->
     err = None /\
     callsOf out = (callsOf c ++ [http.CallWrite (b ++ ["010"%byte])])%list) /\
  (forall b b', indent <> "" -> json.marshal value = inl b ->
     json.appendIndent (b ++ ["010"%byte])%list "" indent = inl b' -> healthy ->
     err = None /\ callsOf out = (callsOf c ++ [http.CallWrite b'])%list) /\
  (forall e, json.marshal value = inr e -> err = Some e /\ callsOf out = callsOf c).
Proof.
  cbv zeta.
  destruct (Json_cases code value indent c) as (Hh & Hs & Hw). cbv zeta in Hw.
  repeat match goal with |- _ /\ _ => split end.
  - apply Json_response.
  - intros Hun. unfold contentTypeOf at 1. rewrite Hh.
    apply (WriteContentType_sets _ c Hun).
  - intros Hset. rewrite Hh. by rewrite (WriteContentType_kept _ _ Hset).
  - exact Hs.
  - destruct (json.encoding _ value) as [b|e].
    + destruct (http.rw_broken (Writer (response c))) as [e|];
        destruct Hw as [_ ->]; [reflexivity|].
      rewrite statusLines_app. cbn. by rewrite app_nil_r.
    + by destruct Hw as [_ ->].
  - intros b -> Hb Hok. cbn in Hw. unfold json.encoding in Hw.
    rewrite Hb in Hw. cbn in Hw. by rewrite Hok in Hw.
  - intros b b' Hind Hb Hb' Hok. apply is_empty_false in Hind.
    rewrite Hind in Hw. unfold json.encoding in Hw.
    rewrite Hb in Hw. cbn in Hw. rewrite Hind in Hw. cbn in Hw.
    rewrite Hb' in Hw. by rewrite Hok in Hw.
  - intros e He. unfold json.encoding in Hw. by rewrite He in Hw.
Qed.
End Encoding.

Lemma Json_type_status_encoding_witness :
  let c := sample.ctx (sample.req "" "" "") sample.writer in
  (@json.marshal _ sample.codec (Some "[1,2]") = inl (bytes_of "[1,2]") /\
   http.rw_broken (Writer (response c)) = None /\
   fst (@Json _ sample.codec 200 (Some "[1,2]") "" c) = None /\
   callsOf (snd (@Json _ sample.codec 200 (Some "[1,2]") "" c))
   = [http.CallWrite (bytes_of "[1,2]" ++ ["010"%byte])]) /\
  (@json.marshal _ sample.codec None = inr sample.unsupported /\
   fst (@Json _ sample.codec 200 None "  " c) = Some sample.unsupported /\
   callsOf (snd (@Json _ sample.codec 200 None "  " c)) = []) /\
  (contentTypeOf c = "" /\
   contentTypeOf (snd (@Json _ sample.codec 200 (Some "[1,2]") "" c))
   = "application/json; charset=UTF-8").
Proof.
  cbv zeta. split; [|split].
  - split; [reflexivity|]. split; [reflexivity|].
    pose proof (@Json_type_status_encoding _ sample.codec 200 (Some "[1,2]") ""
                  (sample.ctx (sample.req "" "" "") sample.writer)) as H.
    cbv zeta in H. destruct H as (_ & _ & _ & _ & _ & H & _).
    exact (H (bytes_of "[1,2]") eq_refl eq_refl eq_refl).
  - split; [reflexivity|].
    pose proof (@Json_type_status_encoding _ sample.codec 200 None "  "
                  (sample.ctx (sample.req "" "" "") sample.writer)) as H.
    cbv zeta in H. destruct H as (_ & _ & _ & _ & _ & _ & _ & H).
    exact (H sample.unsupported eq_refl).
  - assert (Hun : contentTypeOf (sample.ctx (sample.req "" "" "") sample.writer) = "")
      by (vm_compute; reflexivity).
    split; [exact Hun|].
    pose proof (@Json_type_status_encoding _ sample.codec 200 (Some "[1,2]") ""
                  (sample.ctx (sample.req "" "" "") sample.writer)) as H.
    cbv zeta in H. destruct H as (_ & H & _).
    exact (H Hun).
Defined.

(** ** FormParams *)

Section Forms.
Context `{!http.FormParser}.

(** C7. [FormParams] looks at the Content-Type of the request: when it
    starts with the multipart identifier the body is parsed as multipart
    with a memory threshold of 33,554,432 bytes, otherwise as a URL-encoded
    form; the parser's error is returned as it is, with a nil map; on
    success the result is the [Form] map of the request. *)
Theorem FormParams_by_content_type (c : Context) :
  let contentType := http.Header_Get "Content-Type" (http.Header_ (request c)) in
  defaultMemory = 33554432 /\
  (gostrings.HasPrefix contentType "multipart/form-data" = true ->
     (forall e r, http.ParseMultipartForm 33554432 (request c) = (Some e, r) ->
        FormParams c = (None, Some e, with_request r c)) /\
     (forall r, http.ParseMultipartForm 33554432 (request c) = (None, r) ->
        FormParams c = (http.Form r, None, with_request r c))) /\
  (gostrings.HasPrefix contentType "multipart/form-data" = false ->
     (forall e r, http.ParseForm (request c) = (Some e, r) ->
        FormParams c = (None, Some e, with_request r c)) /\
     (forall r, http.ParseForm (request c) = (None, r) ->
        FormParams c = (http.Form r, None, with_request r c))).
Proof.
  cbv zeta. split; [reflexivity|].
  unfold FormParams, HeaderContentType, MIMEMultipartPOSTForm.
  change defaultMemory with 33554432.
  split; intros ->; split.
  - by intros e r ->.
  - by intros r ->.
  - by intros e r ->.
  - by intros r ->.
Qed.
End Forms.

Lemma FormParams_by_content_type_witness :
  let upload := sample.ctx (sample.req "" "multipart/form-data; boundary=x" "--x")
                  sample.writer in
  let form := sample.ctx (sample.req "q=1" MIMEPOSTForm "a=b") sample.writer in
  (gostrings.HasPrefix
     (http.Header_Get "Content-Type" (http.Header_ (request upload)))
     "multipart/form-data" = true /\
   fst (@FormParams sample.parser upload) = (None, Some sample.noMultipart)) /\
  (gostrings.HasPrefix
     (http.Header_Get "Content-Type" (http.Header_ (request form)))
     "multipart/form-data" = false /\
   fst (@FormParams sample.parser form)
   = (http.Form (snd (sample.parseForm (request form))), None)).
Proof.
  cbv zeta. split.
  - assert (Hm : gostrings.HasPrefix
                   (http.Header_Get "Content-Type" (http.Header_ (request
                      (sample.ctx (sample.req "" "multipart/form-data; boundary=x" "--x")
                         sample.writer))))
                   "multipart/form-data" = true) by (vm_compute; reflexivity).
    split; [exact Hm|].
    pose proof (@FormParams_by_content_type sample.parser
                  (sample.ctx (sample.req "" "multipart/form-data; boundary=x" "--x")
                     sample.writer)) as H.
    cbv zeta in H. destruct H as (_ & H & _).
    destruct (H Hm) as [Herr _].
    by rewrite (Herr sample.noMultipart _ eq_refl).
  - assert (Hf : gostrings.HasPrefix
                   (http.Header_Get "Content-Type" (http.Header_ (request
                      (sample.ctx (sample.req "q=1" MIMEPOSTForm "a=b") sample.writer))))
                   "multipart/form-data" = false) by (vm_compute; reflexivity).
    split; [exact Hf|].
    pose proof (@FormParams_by_content_type sample.parser
                  (sample.ctx (sample.req "q=1" MIMEPOSTForm "a=b") sample.writer)) as H.
    cbv zeta in H. destruct H as (_ & _ & H).
    destruct (H Hf) as [_ Hok].
    by rewrite (Hok _ eq_refl).
Defined.

(** ** The handler and the framework instance *)




Section Handlers.
Context {any float64 : Type}.
Context `{!json.Codec any} `{!strconv.FloatParser float64} `{!http.FormParser}.
Variable heap : Heap any.







End Handlers.



Lemma tong_Reset (r : http.Request) (w : http.ResponseWriter) (l k : option addr)
    (c : Context) :
  tong (Reset r w l k c) = tong c.
Proof. reflexivity. Qed.

Lemma tong_Resets (args : list ResetArgs) (c : Context) :
  tong (Resets args c) = tong c.
Proof.
  unfold Resets. revert c.
  induction args as [|[[[r w] l] k] args IH]; intros c; cbn [fold_left].
  - reflexivity.
  - rewrite IH. apply tong_Reset.
Qed.

(** C10. [Reset] writes every field of the context but [tong]: after any
    number of resets the context refers to the framework instance it
    referred to before, and [Bind] hands the target and the context to the
    binder of that instance and returns what this binder returns. *)
Theorem Reset_keeps_framework {any : Type} (heap : Heap any)
    (r : http.Request) (w : http.ResponseWriter) (l k : option addr)
    (args : list ResetArgs) (i : any) (c : Context) :
  let c' := Resets args c in
  tong (Reset r w l k c) = tong c /\
  tong c' = tong c /\
  heap (tong c') = heap (tong c) /\
  (let b := Binder_Bind (heap (tong c)) i c' in
   Bind heap i c'
   = (bound_err b, bound_target b,
      with_response (bound_response b) (with_request (bound_request b) c'))) /\
  fst (fst (Bind heap i c')) = bound_err (Binder_Bind (heap (tong c)) i c').
Proof.
  cbv zeta.
  pose proof (tong_Resets args c) as Htong.
  repeat match goal with |- _ /\ _ => split end.
  - reflexivity.
  - exact Htong.
  - by rewrite Htong.
  - unfold Bind. by rewrite Htong.
  - unfold Bind. cbn [fst]. by rewrite Htong.
Qed.

Example Reset_then_Bind :
  let twice := Resets [(sample.req "a=1" "" "", sample.writer, None, None);
                       (sample.req "b=2" "" "", sample.closedWriter, Some 5%N, None)]
                 sample.routed in
  tong twice = 1%N /\
  fst (Bind sample.heap None twice) = (None, Some "").
Proof. cbv zeta. split; reflexivity. Qed.

Example QueryInt_examples :
  let get q := sample.ctx (sample.req q "" "") sample.writer in
  QueryInt "n" 7 (get "n=abc") = 7 /\
  QueryInt "n" 7 (get "") = 7 /\
  QueryInt "n" 7 (get "n=42") = 42 /\
  QueryInt "n" 7 (get "n=") = 7 /\
  QueryInt "n" 7 (get "n=99999999999999999999") = 7.
Proof. cbv zeta. repeat split; vm_compute; reflexivity. Qed.

Example Blob_then_Redirect :
  let c := sample.ctx (sample.req "" "" "") sample.writer in
  statusLines (callsOf (snd (Redirect 302 "/b" (snd (Blob 200 MIMEPlain (bytes_of "ok") c)))))
  = [200; 302].
Proof. vm_compute. reflexivity. Qed.

(** * Further properties of the methods *)

(** ** QueryString, QueryParams, PostString *)

Lemma with_request_same (c : Context) : with_request (request c) c = c.
Proof. by destruct c. Qed.

(** X1. [QueryString] returns the default when the key has no value or an
    empty first value, and the first value otherwise; a default that is not
    empty is never answered by an empty string; with the empty default the
    result is the first value of the key in [QueryParams]. *)
Theorem QueryString_default_or_first_value (key d : string) (c : Context) :
  let v := url.Get key (QueryParams c) in
  (QueryParams c !! key = None -> QueryString key d c = d) /\
  (v = "" -> QueryString key d c = d) /\
  (v <> "" -> QueryString key d c = v) /\
  (d <> "" -> QueryString key d c <> "") /\
  QueryString key "" c = v.
Proof.
  cbv zeta. unfold QueryString, QueryParams. cbv zeta.
  set (v := url.Get key _).
  repeat match goal with |- _ /\ _ => split end.
  - intros Habs. apply Values_Get_absent in Habs. fold v in Habs. by rewrite Habs.
  - by intros ->.
  - intros Hv. apply is_empty_false in Hv. by rewrite Hv.
  - intros Hd. destruct (is_empty v) eqn:E; [exact Hd|].
    by apply is_empty_false.
  - destruct (is_empty v) eqn:E; [|reflexivity].
    symmetry. by apply is_empty_true.
Qed.

Lemma QueryString_default_or_first_value_witness :
  let c := sample.ctx (sample.req "name=go&name=rocq&empty=" "" "") sample.writer in
  (QueryParams c !! "missing" = None /\ QueryString "missing" "anon" c = "anon") /\
  (url.Get "empty" (QueryParams c) = "" /\ QueryString "empty" "anon" c = "anon") /\
  (url.Get "name" (QueryParams c) <> "" /\ QueryString "name" "anon" c = "go") /\
  ("anon" <> "" /\ QueryString "empty" "anon" c <> "").
Proof.
  cbv zeta.
  pose (c := sample.ctx (sample.req "name=go&name=rocq&empty=" "" "") sample.writer).
  fold c.
  assert (H1 : QueryParams c !! "missing" = None) by (vm_compute; reflexivity).
  assert (H2 : url.Get "empty" (QueryParams c) = "") by (vm_compute; reflexivity).
  assert (H3 : url.Get "name" (QueryParams c) <> "") by (vm_compute; discriminate).
  assert (H3' : url.Get "name" (QueryParams c) = "go") by (vm_compute; reflexivity).
  assert (H4 : "anon" <> "") by discriminate.
  split; [|split; [|split]].
  - split; [exact H1|].
    exact (proj1 (QueryString_default_or_first_value "missing" "anon" c) H1).
  - split; [exact H2|].
    exact (proj1 (proj2 (QueryString_default_or_first_value "empty" "anon" c)) H2).
  - split; [exact H3|].
    rewrite <- H3'.
    exact (proj1 (proj2 (proj2 (QueryString_default_or_first_value "name" "anon" c))) H3).
  - split; [exact H4|].
    exact (proj1 (proj2 (proj2 (proj2
             (QueryString_default_or_first_value "empty" "anon" c)))) H4).
Defined.

(** X2. Only the first value of a key counts for the query readers: when it is
    empty the default is returned, whatever the later values are. *)
Theorem Query_readers_first_value_only
    (key first : string) (later : list string) (ds : string) (d : Z) (c : Context) :
  QueryParams c !! key = Some (first :: later) ->
  QueryString key ds c = (if is_empty first then ds else first) /\
  QueryInt key d c
  = (if is_empty first then d
     else match snd (strconv.Atoi first) with
          | Some _ => d
          | None => fst (strconv.Atoi first)
          end).
Proof.
  intros Hfirst.
  assert (Hv : url.Get key (url.Query (http.URL (request c))) = first).
  { unfold QueryParams in Hfirst. unfold url.Get. by rewrite Hfirst. }
  split.
  - unfold QueryString. cbv zeta. by rewrite Hv.
  - rewrite QueryInt_cases. cbv zeta. by rewrite Hv.
Qed.

Lemma Query_readers_first_value_only_witness :
  let c := sample.ctx (sample.req "n=&n=5" "" "") sample.writer in
  QueryParams c !! "n" = Some [""; "5"] /\
  QueryString "n" "none" c = "none" /\
  QueryInt "n" 7 c = 7.
Proof.
  cbv zeta.
  assert (H : QueryParams (sample.ctx (sample.req "n=&n=5" "" "") sample.writer) !! "n"
              = Some [""; "5"]) by (vm_compute; reflexivity).
  split; [exact H|].
  exact (Query_readers_first_value_only "n" "" ["5"] "none" 7 _ H).
Defined.

(** ** The integer readers stay in the range of [int] *)

Lemma Atoi_in_range (s : string) (n : Z) :
  strconv.Atoi s = (n, None) -> strconv.minInt <= n <= strconv.maxInt.
Proof.
  unfold strconv.Atoi.
  destruct (match s with
            | EmptyString => (false, s)
            | String c rest =>
                if Ascii.eqb c "-" then (true, rest)
                else if Ascii.eqb c "+" then (false, rest) else (false, s)
            end) as [neg body].
  destruct (strconv.unsigned body) as [un|]; [|discriminate].
  destruct (_ <? strconv.minInt) eqn:Elo; [discriminate|].
  destruct (strconv.maxInt <? _) eqn:Ehi; [discriminate|].
  intros [= <-]. apply Z.ltb_ge in Elo, Ehi. lia.
Qed.

Lemma int_reader_in_range (v : string) (d : Z) :
  strconv.minInt <= d <= strconv.maxInt ->
  strconv.minInt
  <= (if is_empty v then d
      else match snd (strconv.Atoi v) with
           | Some _ => d
           | None => fst (strconv.Atoi v)
           end)
  <= strconv.maxInt.
Proof.
  intros Hd. destruct (is_empty v); [exact Hd|].
  destruct (strconv.Atoi v) as [n [e|]] eqn:E; cbn [fst snd]; [exact Hd|].
  by apply (Atoi_in_range v).
Qed.

Lemma unsigned_starts_with_digit (s : string) (un : Z) :
  strconv.unsigned s = Some un ->
  exists c rest, s = String c rest /\ is_digit c = true.
Proof.
  destruct s as [|c rest]; [discriminate|].
  unfold strconv.unsigned. cbn.
  destruct (is_digit c) eqn:E; [|discriminate].
  intros _. by exists c, rest.
Qed.

Lemma digit_is_no_sign (c : ascii) :
  is_digit c = true -> Ascii.eqb c "-" = false /\ Ascii.eqb c "+" = false.
Proof.
  intros Hc. split.
  - destruct (Ascii.eqb_spec c "-") as [->|]; [discriminate Hc | reflexivity].
  - destruct (Ascii.eqb_spec c "+") as [->|]; [discriminate Hc | reflexivity].
Qed.

(** Digits that denote a number above the range, with or without a plus
    sign: [strconv.Atoi] returns the upper bound and a range error. *)
Lemma Atoi_above_range (digits : string) (un : Z) :
  strconv.unsigned digits = Some un -> strconv.maxInt < un ->
  strconv.Atoi digits = (strconv.maxInt, Some (NumError "Atoi" digits ErrRange)) /\
  strconv.Atoi (String "+" digits)
  = (strconv.maxInt, Some (NumError "Atoi" (String "+" digits) ErrRange)).
Proof.
  intros Hun Hhi.
  assert (Hlo : (un <? strconv.minInt) = false).
  { apply Z.ltb_ge. unfold strconv.minInt, strconv.maxInt in *. lia. }
  apply Z.ltb_lt in Hhi.
  split.
  - destruct (unsigned_starts_with_digit _ _ Hun) as (c & rest & -> & Hc).
    destruct (digit_is_no_sign c Hc) as [Hminus Hplus].
    unfold strconv.Atoi. rewrite Hminus, Hplus, Hun. by rewrite Hlo, Hhi.
  - unfold strconv.Atoi. cbn [Ascii.eqb Bool.eqb]. rewrite Hun. by rewrite Hlo, Hhi.
Qed.

(** Digits after a minus sign that denote a number below the range:
    [strconv.Atoi] returns the lower bound and a range error. *)
Lemma Atoi_below_range (digits : string) (un : Z) :
  strconv.unsigned digits = Some un -> strconv.maxInt + 1 < un ->
  strconv.Atoi (String "-" digits)
  = (strconv.minInt, Some (NumError "Atoi" (String "-" digits) ErrRange)).
Proof.
  intros Hun Hhi.
  assert (Hlo : (- un <? strconv.minInt) = true).
  { apply Z.ltb_lt. unfold strconv.minInt, strconv.maxInt in *. lia. }
  unfold strconv.Atoi. cbn [Ascii.eqb Bool.eqb]. rewrite Hun. by rewrite Hlo.
Qed.

Lemma int_reader_on_error (v : string) (d n : Z) (e : error) :
  strconv.Atoi v = (n, Some e) ->
  (if is_empty v then d
   else match snd (strconv.Atoi v) with
        | Some _ => d
        | None => fst (strconv.Atoi v)
        end) = d.
Proof. intros ->. by destruct (is_empty v). Qed.

Section PostReaders.
Context {float64 : Type} `{!strconv.FloatParser float64} `{!http.FormParser}.

(** X3. Digits that denote a number outside the range of a 64-bit [int]
    make [QueryInt] and [PostInt] return the default: [strconv.Atoi] answers
    them with the nearest bound of the range and an error, and the readers
    drop that number, so the result is neither a wrapped nor a clamped
    number. With a default in the range, the result is in the range. *)
Theorem Int_readers_default_on_overflow
    (key digits : string) (un d : Z) (c : Context) :
  strconv.unsigned digits = Some un ->
  let q := url.Get key (QueryParams c) in
  let p := fst (http.PostFormValue key (request c)) in
  (strconv.maxInt < un -> q = digits \/ q = String "+" digits ->
     fst (strconv.Atoi q) = strconv.maxInt /\ QueryInt key d c = d) /\
  (strconv.maxInt + 1 < un -> q = String "-" digits ->
     fst (strconv.Atoi q) = strconv.minInt /\ QueryInt key d c = d) /\
  (strconv.maxInt < un -> p = digits \/ p = String "+" digits ->
     fst (strconv.Atoi p) = strconv.maxInt /\ fst (PostInt key d c) = d) /\
  (strconv.maxInt + 1 < un -> p = String "-" digits ->
     fst (strconv.Atoi p) = strconv.minInt /\ fst (PostInt key d c) = d) /\
  (strconv.minInt <= d <= strconv.maxInt ->
     strconv.minInt <= QueryInt key d c <= strconv.maxInt /\
     strconv.minInt <= fst (PostInt key d c) <= strconv.maxInt).
Proof.
  intros Hun. cbv zeta.
  rewrite QueryInt_cases, PostInt_cases. cbv zeta. cbn [fst].
  change (url.Query (http.URL (request c))) with (QueryParams c).
  set (q := url.Get key (QueryParams c)).
  set (p := fst (http.PostFormValue key (request c))).
  repeat match goal with |- _ /\ _ => split end.
  - intros Hhi Hq.
    destruct (Atoi_above_range digits un Hun Hhi) as [Hplain Hplus].
    destruct Hq as [-> | ->].
    + rewrite (int_reader_on_error _ d _ _ Hplain). by rewrite Hplain.
    + rewrite (int_reader_on_error _ d _ _ Hplus). by rewrite Hplus.
  - intros Hhi ->.
    pose proof (Atoi_below_range digits un Hun Hhi) as Hminus.
    rewrite (int_reader_on_error _ d _ _ Hminus). by rewrite Hminus.
  - intros Hhi Hp.
    destruct (Atoi_above_range digits un Hun Hhi) as [Hplain Hplus].
    destruct Hp as [-> | ->].
    + rewrite (int_reader_on_error _ d _ _ Hplain). by rewrite Hplain.
    + rewrite (int_reader_on_error _ d _ _ Hplus). by rewrite Hplus.
  - intros Hhi ->.
    pose proof (Atoi_below_range digits un Hun Hhi) as Hminus.
    rewrite (int_reader_on_error _ d _ _ Hminus). by rewrite Hminus.
  - intros Hd. split; by apply int_reader_in_range.
Qed.

(** ** PostString and the post readers on a parsed request *)

(** X4. [PostString] returns the default when the first value of the key in
    the post form is empty or missing and that value otherwise; a default
    that is not empty is never answered by an empty string; what the call
    leaves in the context is what the lookup leaves in the request. *)
Theorem PostString_default_or_first_value (key d : string) (c : Context) :
  let p := fst (http.PostFormValue key (request c)) in
  (p = "" -> fst (PostString key d c) = d) /\
  (p <> "" -> fst (PostString key d c) = p) /\
  (d <> "" -> fst (PostString key d c) <> "") /\
  snd (PostString key d c)
  = with_request (snd (http.PostFormValue key (request c))) c.
Proof.
  cbv zeta. unfold PostString.
  destruct (http.PostFormValue key (request c)) as [p r]. cbv zeta. cbn [fst snd].
  repeat match goal with |- _ /\ _ => split end.
  - by intros ->.
  - intros Hp. apply is_empty_false in Hp. by rewrite Hp.
  - intros Hd. destruct (is_empty p) eqn:E; cbn [fst]; [exact Hd|].
    by apply is_empty_false.
  - by destruct (is_empty p).
Qed.

Lemma PostFormValue_parsed (key : string) (vs : url.Values) (r : http.Request) :
  http.PostForm r = Some vs -> http.PostFormValue key r = (url.Get key vs, r).
Proof.
  intros Hvs. unfold http.PostFormValue. rewrite Hvs. cbv zeta. by rewrite Hvs.
Qed.

(** X5. On a request whose post form is parsed already, the post readers look
    the key up in that form: the body parser is not asked again and the
    context is left as it is. *)
Theorem Post_readers_on_parsed_form
    (key : string) (vs : url.Values) (ds : string) (d : Z) (df : float64)
    (c : Context) :
  http.PostForm (request c) = Some vs ->
  let v := url.Get key vs in
  PostString key ds c = (if is_empty v then ds else v, c) /\
  PostInt key d c
  = (if is_empty v then d
     else match snd (strconv.Atoi v) with
          | Some _ => d
          | None => fst (strconv.Atoi v)
          end, c) /\
  PostFloat key df c
  = (if is_empty v then df
     else match snd (strconv.ParseFloat v 64) with
          | Some _ => df
          | None => fst (strconv.ParseFloat v 64)
          end, c).
Proof.
  intros Hvs. cbv zeta.
  pose proof (PostFormValue_parsed key vs (request c) Hvs) as Hp.
  repeat match goal with |- _ /\ _ => split end.
  - unfold PostString. rewrite Hp. cbv beta iota zeta. rewrite with_request_same.
    by destruct (is_empty _).
  - rewrite PostInt_cases. cbv zeta. rewrite Hp. cbn [fst snd].
    by rewrite with_request_same.
  - rewrite PostFloat_cases. cbv zeta. rewrite Hp. cbn [fst snd].
    by rewrite with_request_same.
Qed.
End PostReaders.

Lemma Int_readers_default_on_overflow_witness :
  let c := sample.ctx (sample.req "n=99999999999999999999" MIMEPOSTForm
                         "n=-99999999999999999999") sample.writer in
  strconv.unsigned "99999999999999999999" = Some 99999999999999999999 /\
  strconv.maxInt + 1 < 99999999999999999999 /\
  url.Get "n" (QueryParams c) = "99999999999999999999" /\
  fst (@http.PostFormValue sample.parser "n" (request c)) = "-99999999999999999999" /\
  fst (strconv.Atoi "99999999999999999999") = strconv.maxInt /\
  QueryInt "n" 7 c = 7 /\
  fst (strconv.Atoi "-99999999999999999999") = strconv.minInt /\
  fst (@PostInt sample.parser "n" 7 c) = 7.
Proof.
  cbv zeta.
  pose (c := sample.ctx (sample.req "n=99999999999999999999" MIMEPOSTForm
                           "n=-99999999999999999999") sample.writer).
  fold c.
  assert (Hun : strconv.unsigned "99999999999999999999" = Some 99999999999999999999)
    by (vm_compute; reflexivity).
  assert (Hlow : strconv.maxInt + 1 < 99999999999999999999)
    by (vm_compute; reflexivity).
  assert (Hhigh : strconv.maxInt < 99999999999999999999)
    by (vm_compute; reflexivity).
  assert (Hq : url.Get "n" (QueryParams c) = "99999999999999999999")
    by (vm_compute; reflexivity).
  assert (Hp : fst (@http.PostFormValue sample.parser "n" (request c))
               = "-99999999999999999999") by (vm_compute; reflexivity).
  pose proof (@Int_readers_default_on_overflow sample.parser "n"
                "99999999999999999999" 99999999999999999999 7 c Hun) as H.
  cbv zeta in H. destruct H as (Hquery & _ & _ & Hpost & _).
  destruct (Hquery Hhigh (or_introl Hq)) as [Hqa Hqr].
  destruct (Hpost Hlow Hp) as [Hpa Hpr].
  rewrite Hq in Hqa. rewrite Hp in Hpa.
  repeat match goal with |- _ /\ _ => split end; assumption.
Defined.

Lemma PostString_default_or_first_value_witness :
  let c := sample.ctx (sample.req "" MIMEPOSTForm "name=go&empty=") sample.writer in
  (fst (@http.PostFormValue sample.parser "empty" (request c)) = "" /\
   fst (@PostString sample.parser "empty" "anon" c) = "anon") /\
  (fst (@http.PostFormValue sample.parser "name" (request c)) <> "" /\
   fst (@PostString sample.parser "name" "anon" c) = "go").
Proof.
  cbv zeta.
  pose (c := sample.ctx (sample.req "" MIMEPOSTForm "name=go&empty=") sample.writer).
  fold c.
  assert (H1 : fst (@http.PostFormValue sample.parser "empty" (request c)) = "")
    by (vm_compute; reflexivity).
  assert (H2 : fst (@http.PostFormValue sample.parser "name" (request c)) <> "")
    by (vm_compute; discriminate).
  assert (H2' : fst (@http.PostFormValue sample.parser "name" (request c)) = "go")
    by (vm_compute; reflexivity).
  split.
  - split; [exact H1|].
    exact (proj1 (@PostString_default_or_first_value sample.parser "empty" "anon" c) H1).
  - split; [exact H2|]. rewrite <- H2'.
    exact (proj1 (proj2 (@PostString_default_or_first_value sample.parser
                           "name" "anon" c)) H2).
Defined.

Lemma Post_readers_on_parsed_form_witness :
  let c := snd (@PostString sample.parser "name" ""
                  (sample.ctx (sample.req "" MIMEPOSTForm "name=go&n=5") sample.writer)) in
  http.PostForm (request c) = Some (url.ParseQuery "name=go&n=5") /\
  @PostString sample.parser "name" "anon" c = ("go", c) /\
  @PostInt sample.parser "n" 7 c = (5, c).
Proof.
  cbv zeta.
  pose (c := snd (@PostString sample.parser "name" ""
                    (sample.ctx (sample.req "" MIMEPOSTForm "name=go&n=5")
                       sample.writer))).
  fold c.
  assert (H : http.PostForm (request c) = Some (url.ParseQuery "name=go&n=5"))
    by (vm_compute; reflexivity).
  split; [exact H|].
  pose proof (@Post_readers_on_parsed_form Z sample.floats sample.parser
                "name" _ "anon" 7 7 c H) as Hname.
  pose proof (@Post_readers_on_parsed_form Z sample.floats sample.parser
                "n" _ "anon" 7 7 c H) as Hn.
  cbv zeta in Hname, Hn.
  split.
  - rewrite (proj1 Hname). reflexivity.
  - rewrite (proj1 (proj2 Hn)). reflexivity.
Defined.

(** ** What Redirect and WriteContentType leave alone *)

(** X6. [Redirect] changes the Location field and no other: every other field
    of the header reads as before, the Content-Type among them, and the
    request and the fields of the routing are untouched. *)
Theorem Redirect_touches_Location_only
    (code : Z) (url key : string) (c : Context) :
  let c' := snd (Redirect code url c) in
  (textproto.CanonicalMIMEHeaderKey key <> "Location" ->
     http.Header_Get key (headerOf c') = http.Header_Get key (headerOf c) /\
     headerOf c' !! textproto.CanonicalMIMEHeaderKey key
     = headerOf c !! textproto.CanonicalMIMEHeaderKey key) /\
  contentTypeOf c' = contentTypeOf c /\
  request c' = request c /\
  frame c' = frame c.
Proof.
  cbv zeta. unfold Redirect.
  destruct (_ || _); cbn [snd]; [by repeat split|].
  repeat match goal with |- _ /\ _ => split end; try reflexivity.
  - intros Hkey. unfold headerOf. cbn. split.
    + by apply Header_Get_Set_other.
    + unfold http.Header_Set. by rewrite lookup_insert_ne.
  - unfold contentTypeOf, headerOf. cbn. by apply Header_Get_Set_other.
Qed.

Lemma Redirect_touches_Location_only_witness :
  let c := WriteContentType MIMEHTML (sample.ctx (sample.req "" "" "") sample.writer) in
  textproto.CanonicalMIMEHeaderKey "content-type" <> "Location" /\
  http.Header_Get "content-type" (headerOf (snd (Redirect 301 "/new" c))) = MIMEHTML.
Proof.
  cbv zeta.
  assert (H : textproto.CanonicalMIMEHeaderKey "content-type" <> "Location")
    by (vm_compute; discriminate).
  split; [exact H|].
  rewrite (proj1 (proj1 (Redirect_touches_Location_only 301 "/new" "content-type" _) H)).
  vm_compute. reflexivity.
Defined.

(** X7. [WriteContentType] changes the Content-Type field and no other, asks
    the writer for nothing, and leaves the status, the request and the
    fields of the routing as they are. *)
Theorem WriteContentType_touches_Content_Type_only
    (value key : string) (c : Context) :
  let c' := WriteContentType value c in
  (textproto.CanonicalMIMEHeaderKey key <> "Content-Type" ->
     http.Header_Get key (headerOf c') = http.Header_Get key (headerOf c)) /\
  callsOf c' = callsOf c /\
  Status (response c') = Status (response c) /\
  Committed (response c') = Committed (response c) /\
  request c' = request c /\
  frame c' = frame c.
Proof.
  cbv zeta. unfold WriteContentType. cbv zeta.
  destruct (is_empty _); [|by repeat split].
  repeat match goal with |- _ /\ _ => split end; try reflexivity.
  intros Hkey. unfold headerOf. cbn. by apply Header_Get_Set_other.
Qed.

Lemma WriteContentType_touches_Content_Type_only_witness :
  let c := snd (Redirect 301 "/new" (sample.ctx (sample.req "" "" "") sample.writer)) in
  textproto.CanonicalMIMEHeaderKey "location" <> "Content-Type" /\
  http.Header_Get "location" (headerOf (WriteContentType MIMEHTML c)) = "/new".
Proof.
  cbv zeta.
  assert (H : textproto.CanonicalMIMEHeaderKey "location" <> "Content-Type")
    by (vm_compute; discriminate).
  split; [exact H|].
  rewrite (proj1 (WriteContentType_touches_Content_Type_only MIMEHTML "location" _) H).
  vm_compute. reflexivity.
Defined.

(** ** WriteContentType, called again and again *)

Lemma firstNonEmpty_cons (value : string) (values : list string) :
  firstNonEmpty (value :: values)
  = if is_empty value then firstNonEmpty values else value.
Proof. unfold firstNonEmpty. cbn. by destruct (is_empty value). Qed.

(** X8. After any number of calls of [WriteContentType] the Content-Type is
    the first string that is not empty among the value the header held
    before and the values of the calls, in this order. *)
Theorem WriteContentType_first_non_empty_wins (values : list string) (c : Context) :
  contentTypeOf (WriteContentTypes values c)
  = firstNonEmpty (contentTypeOf c :: values).
Proof.
  unfold WriteContentTypes. revert c.
  induction values as [|value values IH]; intros c; cbn [fold_left].
  - rewrite firstNonEmpty_cons. unfold firstNonEmpty. cbn.
    destruct (is_empty (contentTypeOf c)) eqn:E; [|reflexivity].
    by apply is_empty_true.
  - rewrite IH, !firstNonEmpty_cons.
    destruct (is_empty (contentTypeOf c)) eqn:E.
    + apply is_empty_true in E.
      rewrite (WriteContentType_sets value c E).
      by rewrite <- firstNonEmpty_cons.
    + apply is_empty_false in E.
      rewrite (WriteContentType_kept value c E).
      apply is_empty_false in E. by rewrite E.
Qed.

Example WriteContentType_three_calls :
  contentTypeOf (WriteContentTypes [""; MIMEXML; MIMEJSON]
                   (sample.ctx (sample.req "" "" "") sample.writer))
  = MIMEXML.
Proof. vm_compute. reflexivity. Qed.

(** ** The content type and the body writers *)

Lemma Blob_request (code : Z) (contentType : string) (data : list byte) (c : Context) :
  request (snd (Blob code contentType data c)) = request c /\
  frame (snd (Blob code contentType data c)) = frame c.
Proof.
  unfold Blob. cbv zeta.
  destruct (Response_Write data _) as [[n err] r]. cbn [snd].
  unfold WriteContentType. cbv zeta. by destruct (is_empty _).
Qed.

(** X9. The header map that goes out with the status line of [Blob] is the one
    from before the call: when the Content-Type read as empty then, the
    content type [Blob] sets is in the header after the call but not in
    what the writer was given with the status line. *)
Theorem Blob_status_line_before_content_type
    (code : Z) (contentType : string) (data : list byte) (c : Context) :
  contentTypeOf c = "" -> contentType <> "" ->
  let out := snd (Blob code contentType data c) in
  contentTypeOf out = contentType /\
  exists sent rest,
    callsOf out = (callsOf c ++ http.CallWriteHeader code sent :: rest)%list /\
    http.Header_Get common.HeaderContentType sent = "" /\
    http.Header_Get common.HeaderContentType sent <> contentTypeOf out.
Proof.
  intros Hun Hct. cbv zeta.
  destruct (Blob_cases code contentType data c) as (Hh & _ & Hw). cbv zeta in Hw.
  assert (Hout : contentTypeOf (snd (Blob code contentType data c)) = contentType).
  { unfold contentTypeOf at 1. rewrite Hh. apply (WriteContentType_sets _ c Hun). }
  split; [exact Hout|].
  exists (headerOf c).
  destruct (http.rw_broken (Writer (response c))) as [e|]; destruct Hw as [_ Hcalls].
  - exists []. rewrite Hcalls, Hout. fold (contentTypeOf c). rewrite Hun.
    repeat split. congruence.
  - exists [http.CallWrite data]. rewrite Hcalls, Hout. fold (contentTypeOf c).
    rewrite Hun. repeat split. congruence.
Qed.

Lemma Blob_status_line_before_content_type_witness :
  let c := sample.ctx (sample.req "" "" "") sample.writer in
  contentTypeOf c = "" /\ MIMEHTML <> "" /\
  contentTypeOf (snd (Blob 200 MIMEHTML (bytes_of "<p>") c)) = MIMEHTML /\
  callsOf (snd (Blob 200 MIMEHTML (bytes_of "<p>") c))
  = [http.CallWriteHeader 200 ∅; http.CallWrite (bytes_of "<p>")].
Proof.
  cbv zeta.
  assert (Hun : contentTypeOf (sample.ctx (sample.req "" "" "") sample.writer) = "")
    by (vm_compute; reflexivity).
  assert (Hct : MIMEHTML <> "") by (vm_compute; discriminate).
  split; [exact Hun|]. split; [exact Hct|].
  split.
  - exact (proj1 (Blob_status_line_before_content_type 200 MIMEHTML (bytes_of "<p>")
                    _ Hun Hct)).
  - vm_compute. reflexivity.
Defined.

Section Writers.
Context {any : Type} `{!json.Codec any}.

Lemma Json_request (code : Z) (value : any) (indent : string) (c : Context) :
  request (snd (Json code value indent c)) = request c /\
  frame (snd (Json code value indent c)) = frame c.
Proof.
  unfold Json. cbv zeta.
  destruct (Encode _ value _) as [err r]. cbn [snd].
  unfold WriteContentType. cbv zeta. by destruct (is_empty _).
Qed.

(** X10. A content type that is set and not empty survives every writer:
    [Blob], [String], [Json] and [Redirect] leave it as it is, whatever
    content type they are called with. *)
Theorem explicit_content_type_survives
    (code : Z) (contentType : string) (data : list byte) (text : string)
    (value : any) (indent url : string) (c : Context) :
  contentTypeOf c <> "" ->
  contentTypeOf (snd (Blob code contentType data c)) = contentTypeOf c /\
  contentTypeOf (snd (String_ code text c)) = contentTypeOf c /\
  contentTypeOf (snd (Json code value indent c)) = contentTypeOf c /\
  contentTypeOf (snd (Redirect code url c)) = contentTypeOf c.
Proof.
  intros Hset.
  repeat match goal with |- _ /\ _ => split end.
  - destruct (Blob_cases code contentType data c) as (Hh & _).
    unfold contentTypeOf at 1. rewrite Hh.
    by rewrite (WriteContentType_kept _ _ Hset).
  - destruct (Blob_cases code common.MIMETextPlainCharsetUTF8 (bytes_of text) c)
      as (Hh & _).
    unfold String_, contentTypeOf at 1. rewrite Hh.
    by rewrite (WriteContentType_kept _ _ Hset).
  - destruct (Json_cases code value indent c) as (Hh & _).
    unfold contentTypeOf at 1. rewrite Hh.
    by rewrite (WriteContentType_kept _ _ Hset).
  - unfold Redirect. destruct (_ || _); cbn [snd]; [reflexivity|].
    unfold contentTypeOf, headerOf. cbn. by apply Header_Get_Set_other.
Qed.
End Writers.

Lemma explicit_content_type_survives_witness :
  let c := WriteContentType MIMEXML (sample.ctx (sample.req "" "" "") sample.writer) in
  contentTypeOf c <> "" /\
  contentTypeOf (snd (@Json _ sample.codec 200 (Some "[1]") "" c)) = MIMEXML /\
  contentTypeOf (snd (String_ 200 "hello" c)) = MIMEXML.
Proof.
  cbv zeta.
  pose (c := WriteContentType MIMEXML (sample.ctx (sample.req "" "" "") sample.writer)).
  fold c.
  assert (H : contentTypeOf c <> "") by (vm_compute; discriminate).
  assert (Hc : contentTypeOf c = MIMEXML) by (vm_compute; reflexivity).
  split; [exact H|].
  pose proof (@explicit_content_type_survives _ sample.codec 200 "" [] "hello"
                (Some "[1]") "" "" c H) as (_ & Hs & Hj & _).
  rewrite <- Hc. split; [exact Hj | exact Hs].
Defined.

(** ** FormParams *)

Section FormValues.
Context `{!http.FormParser}.

(** X11. [FormParams] returns the form map or an error, never both: with an
    error the map is nil, without one it is the [Form] of the request as
    the parser left it; the response and the fields of the routing are not
    touched. *)
Theorem FormParams_values_or_error (c : Context) :
  let values := fst (fst (FormParams c)) in
  let err := snd (fst (FormParams c)) in
  let c' := snd (FormParams c) in
  (err <> None -> values = None) /\
  (err = None -> values = http.Form (request c')) /\
  response c' = response c /\
  frame c' = frame c.
Proof.
  cbv zeta. unfold FormParams.
  destruct (gostrings.HasPrefix _ _).
  - destruct (http.ParseMultipartForm _ _) as [[e|] r]; cbn; by repeat split.
  - destruct (http.ParseForm _) as [[e|] r]; cbn; by repeat split.
Qed.
End FormValues.

Lemma FormParams_values_or_error_witness :
  let upload := sample.ctx (sample.req "" "multipart/form-data; boundary=x" "--x")
                  sample.writer in
  let form := sample.ctx (sample.req "q=1" MIMEPOSTForm "a=b") sample.writer in
  (snd (fst (@FormParams sample.parser upload)) <> None /\
   fst (fst (@FormParams sample.parser upload)) = None) /\
  (snd (fst (@FormParams sample.parser form)) = None /\
   url.Get "a" (default ∅ (fst (fst (@FormParams sample.parser form)))) = "b" /\
   url.Get "q" (default ∅ (fst (fst (@FormParams sample.parser form)))) = "1").
Proof.
  cbv zeta. split.
  - assert (H : snd (fst (@FormParams sample.parser
                  (sample.ctx (sample.req "" "multipart/form-data; boundary=x" "--x")
                     sample.writer))) <> None) by (vm_compute; discriminate).
    split; [exact H|].
    exact (proj1 (@FormParams_values_or_error sample.parser _) H).
  - assert (H : snd (fst (@FormParams sample.parser
                  (sample.ctx (sample.req "q=1" MIMEPOSTForm "a=b") sample.writer)))
                = None) by (vm_compute; reflexivity).
    split; [exact H|].
    rewrite (proj1 (proj2 (@FormParams_values_or_error sample.parser _)) H).
    split; vm_compute; reflexivity.
Defined.

(** ** The methods, one after the other *)

Section Sequences.
Context {any float64 : Type}.
Context `{!json.Codec any} `{!strconv.FloatParser float64} `{!http.FormParser}.
Variable heap : Heap any.

Lemma frame_exec (op : Op any float64) (c : Context) :
  is_Reset op = false -> frame (exec heap op c) = frame c.
Proof.
  destruct op; cbn [is_Reset exec]; intros Hop; try discriminate; try reflexivity.
  - unfold Redirect. by destruct (_ || _).
  - unfold WriteContentType. cbv zeta. by destruct (is_empty _).
  - apply Blob_request.
  - apply Json_request.
  - apply Blob_request.
  - by rewrite PostInt_cases.
  - by rewrite PostFloat_cases.
  - unfold PostString. destruct (http.PostFormValue _ _) as [p r]. cbv zeta.
    by destruct (is_empty p).
  - unfold FormParams. destruct (gostrings.HasPrefix _ _).
    + by destruct (http.ParseMultipartForm _ _) as [[e|] r].
    + by destruct (http.ParseForm _) as [[e|] r].
Qed.

Lemma tong_exec (op : Op any float64) (c : Context) :
  tong (exec heap op c) = tong c.
Proof.
  destruct (is_Reset op) eqn:E.
  - by destruct op.
  - pose proof (frame_exec op c E) as Hframe. unfold frame in Hframe. congruence.
Qed.

Lemma tong_run (ops : list (Op any float64)) (c : Context) :
  tong (run heap ops c) = tong c.
Proof.
  unfold run. revert c. induction ops as [|op ops IH]; intros c; cbn [fold_left].
  - reflexivity.
  - by rewrite IH, tong_exec.
Qed.

(** X12. The path, the handler, the logger, the cache and the framework
    instance of a context are the same after any sequence of methods with
    no [Reset] in it; the framework instance is the same after any sequence
    at all. *)
Theorem only_Reset_rebinds (ops : list (Op any float64)) (c : Context) :
  tong (run heap ops c) = tong c /\
  (forallb (fun op => negb (is_Reset op)) ops = true ->
   Path (run heap ops c) = Path c /\
   Handler (run heap ops c) = Handler c /\
   Logger (run heap ops c) = Logger c /\
   RequestCache (run heap ops c) = RequestCache c).
Proof.
  split; [apply tong_run|].
  intros Hops.
  assert (Hframe : frame (run heap ops c) = frame c).
  { unfold run. revert c. induction ops as [|op ops IH]; intros c; cbn [fold_left].
    - reflexivity.
    - cbn [forallb] in Hops. apply andb_true_iff in Hops as [Hop Hops].
      rewrite (IH Hops). apply frame_exec. by apply negb_true_iff. }
  unfold frame in Hframe. by injection Hframe as -> -> -> -> _.
Qed.

(** X13. A [Reset] wipes out whatever the methods called before it did: the
    context after the reset is the one a reset of the initial context
    gives. *)
Theorem Reset_absorbs_history
    (r : http.Request) (w : http.ResponseWriter) (l k : option addr)
    (ops : list (Op any float64)) (c : Context) :
  Reset r w l k (run heap ops c) = Reset r w l k c /\
  run heap (ops ++ [OpReset r w l k]) c = Reset r w l k c.
Proof.
  assert (Habs : Reset r w l k (run heap ops c) = Reset r w l k c).
  { unfold Reset, Response_Reset. by rewrite tong_run. }
  split; [exact Habs|].
  unfold run in *. by rewrite fold_left_app.
Qed.

(** X14. The writers leave the request alone, so the query readers return after
    a writer what they returned before; the readers leave the response
    alone. *)
Theorem writers_and_readers_apart (op : Op any float64) (c : Context) :
  (is_writer op = true ->
     request (exec heap op c) = request c /\
     QueryParams (exec heap op c) = QueryParams c /\
     (forall key d, QueryInt key d (exec heap op c) = QueryInt key d c) /\
     (forall key d, QueryString key d (exec heap op c) = QueryString key d c)) /\
  (is_reader op = true -> response (exec heap op c) = response c).
Proof.
  split.
  - intros Hop.
    assert (Hreq : request (exec heap op c) = request c).
    { destruct op; cbn [is_writer] in Hop; try discriminate; cbn [exec].
      - unfold Redirect. by destruct (_ || _).
      - unfold WriteContentType. cbv zeta. by destruct (is_empty _).
      - apply Blob_request.
      - apply Json_request.
      - apply Blob_request. }
    split; [exact Hreq|].
    unfold QueryParams, QueryInt, QueryString. by rewrite Hreq.
  - intros Hop.
    destruct op; cbn [is_reader] in Hop; try discriminate; cbn [exec];
      try reflexivity.
    + by rewrite PostInt_cases.
    + by rewrite PostFloat_cases.
    + unfold PostString. destruct (http.PostFormValue _ _) as [p r]. cbv zeta.
      by destruct (is_empty p).
    + unfold FormParams. destruct (gostrings.HasPrefix _ _).
      * by destruct (http.ParseMultipartForm _ _) as [[e|] r].
      * by destruct (http.ParseForm _) as [[e|] r].
Qed.
End Sequences.

Lemma only_Reset_rebinds_witness :
  let ops : list (Op (option string) Z) :=
    [OpWriteContentType MIMEJSON; OpBlob 200 MIMEPlain (bytes_of "ok");
     OpPostInt "n" 1; OpFormParams; OpBind None; OpRedirect 302 "/b"] in
  let c := @run _ Z sample.codec sample.floats sample.parser sample.heap ops
             sample.routed in
  forallb (fun op => negb (is_Reset op)) ops = true /\
  Path c = "/users" /\ Handler c = Some (RouteHandler 3).
Proof.
  cbv zeta.
  set (ops := [OpWriteContentType MIMEJSON; OpBlob 200 MIMEPlain (bytes_of "ok");
               OpPostInt "n" 1; OpFormParams; OpBind None; OpRedirect 302 "/b"]
              : list (Op (option string) Z)).
  assert (Hops : forallb (fun op => negb (is_Reset op)) ops = true) by reflexivity.
  split; [exact Hops|].
  destruct (proj2 (@only_Reset_rebinds _ Z sample.codec sample.floats sample.parser
                     sample.heap ops sample.routed) Hops) as (Hp & Hh & _).
  rewrite Hp, Hh. split; reflexivity.
Defined.

Lemma writers_and_readers_apart_witness :
  let c := sample.ctx (sample.req "n=42" MIMEPOSTForm "a=b") sample.writer in
  let blob : Op (option string) Z := OpBlob 200 MIMEPlain (bytes_of "ok") in
  let form : Op (option string) Z := OpFormParams in
  (is_writer blob = true /\
   QueryInt "n" 7 (@exec _ Z sample.codec sample.floats sample.parser sample.heap blob c)
   = 42) /\
  (is_reader form = true /\
   response (@exec _ Z sample.codec sample.floats sample.parser sample.heap form c)
   = response c).
Proof.
  cbv zeta. split.
  - split; [reflexivity|].
    destruct (proj1 (@writers_and_readers_apart _ Z sample.codec sample.floats
                       sample.parser sample.heap
                       (OpBlob 200 MIMEPlain (bytes_of "ok"))
                       (sample.ctx (sample.req "n=42" MIMEPOSTForm "a=b") sample.writer))
                eq_refl) as (_ & _ & Hq & _).
    rewrite Hq. vm_compute. reflexivity.
  - split; [reflexivity|].
    exact (proj2 (@writers_and_readers_apart _ Z sample.codec sample.floats
                    sample.parser sample.heap OpFormParams
                    (sample.ctx (sample.req "n=42" MIMEPOSTForm "a=b") sample.writer))
             eq_refl).
Defined.
